(** * youtube-clipper backend: the POST /api/clip handler

    A shallow embedding of [backend/src/index.ts].  The handler is a single
    linear sequence (validate, build the yt-dlp argument list, spawn, await
    the process, check the output file, send it, clean up); everything it
    depends on outside the file (the clock, the disk, the child process, the
    transport of the response, the engine's number printing) is an explicit
    input of the model, and everything it does is recorded in a trace. *)

From Corelib Require Import PrimFloat.
From Stdlib Require Import ZArith DecimalString DecimalZ DecimalPos Ascii.
From stdpp Require Import gmap strings list.

#[local] Set Warnings "-register-all".
Local Open Scope string_scope.
Local Open Scope list_scope.

(** ** JavaScript values held by a parsed JSON body *)

(** The values [express.json()] can put into [req.body], plus [undefined],
    which is what reading an absent property yields.  Numbers are IEEE
    doubles, as in the engine. *)
Inductive JsValue : Type :=
  | JUndefined
  | JNull
  | JBool (b : bool)
  | JNumber (x : float)
  | JString (s : string)
  | JArray (items : list JsValue)
  | JObject (props : list (string * JsValue)).

(** Own-property lookup in a parsed object; the first binding of a key is
    the property's value. *)
Fixpoint own_property (props : list (string * JsValue)) (key : string)
    : option JsValue :=
  match props with
  | [] => None
  | (k, v) :: rest => if String.eqb k key then Some v else own_property rest key
  end.

(** [body.key] for a plain object: its own property, else [undefined]
    ([Object.prototype] has none of the names the handler reads). *)
Definition get_property (props : list (string * JsValue)) (key : string)
    : JsValue :=
  default JUndefined (own_property props key).

(** ToBoolean, the test behind [!x]. *)
Definition truthy (v : JsValue) : bool :=
  match v with
  | JUndefined | JNull => false
  | JBool b => b
  | JNumber x => negb (is_zero x || is_nan x)
  | JString s => negb (String.eqb s "")
  | JArray _ | JObject _ => true
  end.

(** ** Thrown values and completions *)

(** An [Error] instance: its message and whatever further properties it
    carries.  Errors built with [new Error(msg)] carry none. *)
Record JsError : Type := mkError {
  message : string;
  extra : list (string * JsValue)
}.

(** What a [catch] clause can receive. *)
Inductive Thrown : Type :=
  | ThrownError (e : JsError)
  | ThrownString (s : string).

Definition new_Error (msg : string) : Thrown :=
  ThrownError (mkError msg []).

(** How a piece of the handler ends: normally, by throwing, or suspended at
    an [await] that is never resumed. *)
Inductive Completion (A : Type) : Type :=
  | Normal (a : A)
  | Throws (t : Thrown)
  | Suspended.
Arguments Normal {A} a.
Arguments Throws {A} t.
Arguments Suspended {A}.

(** ** Strings *)

(** [s.includes(t)] *)
Fixpoint includes (s t : string) : bool :=
  String.prefix t s ||
  match s with
  | EmptyString => false
  | String _ s' => includes s' t
  end.

(** Decimal text of an integer-valued number (timestamps, exit codes,
    lengths). *)
Definition show_Z (z : Z) : string :=
  NilZero.string_of_int (Z.to_int z).

(** [path.join(dir, name)] for a directory that [path.join] has already
    normalised and a single file name: the two joined by the separator. *)
Definition path_join (dir name : string) : string :=
  dir +:+ "/" +:+ name.

Section ToString.
(** Number::toString of the engine (shortest round-trip decimal text). *)
Variable number_to_string : float -> string.

Definition cannot_convert : Thrown :=
  ThrownError (mkError "Cannot convert object to primitive value" []).

(** ToString, as applied by a template literal.  A parsed object prints
    through [Object.prototype.toString] unless it has an own [toString]
    property, which (holding JSON data) is not callable, and then neither
    is any conversion left.  An array joins its elements with commas,
    [null] printing as nothing. *)
Fixpoint ToString (v : JsValue) : Completion string :=
  match v with
  | JUndefined => Normal "undefined"
  | JNull => Normal "null"
  | JBool b => Normal (if b then "true" else "false")
  | JNumber x => Normal (number_to_string x)
  | JString s => Normal s
  | JArray items =>
      (fix join (l : list JsValue) : Completion string :=
         match l with
         | [] => Normal ""
         | x :: rest =>
             let first :=
               match x with
               | JUndefined | JNull => Normal ""
               | _ => ToString x
               end in
             match first with
             | Normal s =>
                 match rest with
                 | [] => Normal s
                 | _ :: _ =>
                     match join rest with
                     | Normal r => Normal (s +:+ "," +:+ r)
                     | other => other
                     end
                 end
             | other => other
             end
         end) items
  | JObject props =>
      match own_property props "toString" with
      | Some _ => Throws cannot_convert
      | None => Normal "[object Object]"
      end
  end.
End ToString.

(** ** The world around the handler *)

(** A file on disk: its size in bytes ([fs.statSync(p).size]), its content
    read as text ([fs.readFileSync(p, 'utf8')]), and the error that opening
    it for reading raises, if any.  The text is kept one character per
    UTF-16 code unit of the string the engine returns, so that its length
    is [cookiesContent.length]; code units above 255 are outside the
    model, and the length only decides a log line. *)
Record File : Type := mkFile {
  size : Z;
  text : string;
  read_error : option JsError
}.

Abbreviation Disk := (gmap string File).

Inductive Level : Type := LLog | LWarn | LError.

(** The body of a JSON response, field by field. *)
Abbreviation JsonBody := (list (string * string)).

(** What the handler does that can be seen from outside, in order. *)
Inductive Effect : Type :=
  | Console (lvl : Level) (line : string)
  | Spawn (command : string) (args : list JsValue)
  | ResJson (status : Z) (body : JsonBody)
  | ResDownload (path filename : string) (failure : option JsError)
  | Unlink (path : string).

(** What the child process does once the listeners are attached: chunks on
    its two pipes and changes to the disk. *)
Inductive ChildEvent : Type :=
  | StdoutData (chunk : string)
  | StderrData (chunk : string)
  | WritesFile (path : string) (f : File)
  | RemovesFile (path : string).

(** How the child process ends: the ['close'] event with its exit code
    ([null] when killed by a signal), the ['error'] event, or never.  The
    first of the two events settles the awaited promise; one that fires
    after it can only print. *)
Inductive Ending : Type :=
  | Closed (code : option Z)
  | Errored (err : JsError)
  | Hangs.

(** The result of [spawn]: an exception thrown on the spot, or a child. *)
Inductive ChildProcess : Type :=
  | SpawnThrows (t : Thrown)
  | Child (events : list ChildEvent) (ending : Ending).

(** The inputs the handler reads from its environment during one request. *)
Record Env : Type := mkEnv {
  now : Z;                                     (* Date.now() *)
  yt_dlp : list JsValue -> ChildProcess;       (* spawn("yt-dlp", args) *)
  transport_error : option JsError;            (* res.download failing *)
  unlink_error : string -> option JsError      (* fs.unlink failing *)
}.

Record World : Type := mkWorld {
  disk : Disk;
  trace : list Effect
}.

(** ** The handler's monad: state, exceptions, suspension *)

Definition Js (A : Type) : Type := World -> Completion A * World.

Definition ret {A} (a : A) : Js A := fun w => (Normal a, w).

Definition bind {A B} (m : Js A) (k : A -> Js B) : Js B :=
  fun w =>
    match m w with
    | (Normal a, w') => k a w'
    | (Throws t, w') => (Throws t, w')
    | (Suspended, w') => (Suspended, w')
    end.

Definition throw {A} (t : Thrown) : Js A := fun w => (Throws t, w).

(** [try { body } catch (e) { handler e }] *)
Definition try_catch {A} (body : Js A) (handler : Thrown -> Js A) : Js A :=
  fun w =>
    match body w with
    | (Throws t, w') => handler t w'
    | other => other
    end.

(** A pure computation that may throw, run in the monad. *)
Definition lift {A} (c : Completion A) : Js A := fun w => (c, w).

(** An [await] on a promise nobody settles. *)
Definition suspend {A} : Js A := fun w => (Suspended, w).

#[export] Instance Js_ret : MRet Js := @ret.
#[export] Instance Js_bind : MBind Js := fun A B k m => bind m k.

Definition emit (e : Effect) : Js unit :=
  fun w => (Normal tt, mkWorld (disk w) (trace w ++ [e])).

Definition console_log (line : string) : Js unit := emit (Console LLog line).
Definition console_warn (line : string) : Js unit := emit (Console LWarn line).
Definition console_error (line : string) : Js unit := emit (Console LError line).

Definition existsSync (path : string) : Js bool :=
  fun w => (Normal (bool_decide (is_Some (disk w !! path))), w).

Definition enoent_error (syscall path : string) : JsError :=
  mkError ("ENOENT: no such file or directory, " +:+ syscall +:+ " '" +:+ path +:+ "'") [].

Definition enoent (syscall path : string) : Thrown :=
  ThrownError (enoent_error syscall path).

(** Runs a callback the caller does not wait for: however it ends, the
    caller goes on. *)
Definition detached (m : Js unit) : Js unit :=
  fun w => (Normal tt, snd (m w)).

(** [fs.statSync(path).size] *)
Definition statSync_size (path : string) : Js Z :=
  fun w =>
    match disk w !! path with
    | Some f => (Normal (size f), w)
    | None => (Throws (enoent "stat" path), w)
    end.

(** [fs.readFileSync(path, 'utf8')] *)
Definition readFileSync (path : string) : Js string :=
  fun w =>
    match disk w !! path with
    | Some f =>
        match read_error f with
        | Some e => (Throws (ThrownError e), w)
        | None => (Normal (text f), w)
        end
    | None => (Throws (enoent "open" path), w)
    end.

Definition apply_child_event (ev : ChildEvent) (d : Disk) : Disk :=
  match ev with
  | WritesFile p f => <[p := f]> d
  | RemovesFile p => delete p d
  | StdoutData _ | StderrData _ => d
  end.

Definition child_acts (ev : ChildEvent) : Js unit :=
  fun w => (Normal tt, mkWorld (apply_child_event ev (disk w)) (trace w)).

(** ** Vocabulary on traces and child events *)

(** [processStderr] when the child ends: its stderr chunks, in order. *)
Fixpoint stderr_of (events : list ChildEvent) : string :=
  match events with
  | [] => ""
  | StderrData chunk :: rest => chunk +:+ stderr_of rest
  | _ :: rest => stderr_of rest
  end.

Fixpoint stdout_of (events : list ChildEvent) : string :=
  match events with
  | [] => ""
  | StdoutData chunk :: rest => chunk +:+ stdout_of rest
  | _ :: rest => stdout_of rest
  end.

(** The disk once the child has done all it does. *)
Definition disk_after (events : list ChildEvent) (d : Disk) : Disk :=
  foldl (fun acc ev => apply_child_event ev acc) d events.

(** The lines the two ['data'] listeners print. *)
Fixpoint listen_lines (events : list ChildEvent) : list Effect :=
  match events with
  | [] => []
  | StderrData chunk :: rest =>
      Console LError ("yt-dlp stderr: " +:+ chunk) :: listen_lines rest
  | StdoutData chunk :: rest =>
      Console LLog ("yt-dlp stdout: " +:+ chunk) :: listen_lines rest
  | _ :: rest => listen_lines rest
  end.

Definition is_response (e : Effect) : bool :=
  match e with
  | ResJson _ _ | ResDownload _ _ _ => true
  | _ => false
  end.

(** The handler's calls that answer the client, in order: [res.json], and
    [res.download] with the failure of the transfer, if any.  A download
    that failed is a call, not something the client has got. *)
Definition responses (tr : list Effect) : list Effect :=
  List.filter is_response tr.

Definition is_spawn (e : Effect) : bool :=
  match e with
  | Spawn _ _ => true
  | _ => false
  end.

(** The calls of [spawn], in order. *)
Definition spawns (tr : list Effect) : list Effect :=
  List.filter is_spawn tr.

Definition spawn_count (tr : list Effect) : nat :=
  length (spawns tr).

Definition is_unlink (e : Effect) : bool :=
  match e with
  | Unlink _ => true
  | _ => false
  end.

(** The paths the handler tried to delete, in order. *)
Fixpoint unlinked (tr : list Effect) : list string :=
  match tr with
  | [] => []
  | Unlink p :: rest => p :: unlinked rest
  | _ :: rest => unlinked rest
  end.

(** [t] occurs in [s]. *)
Definition occurs_in (t s : string) : Prop :=
  exists before after : string, s = before +:+ t +:+ after.

(** Character [c] occurs in [s]. *)
Fixpoint has_char (c : Ascii.ascii) (s : string) : bool :=
  match s with
  | EmptyString => false
  | String x rest => Ascii.eqb x c || has_char c rest
  end.

(** The send of the file was started and broke. *)
Definition send_failed (tr : list Effect) : Prop :=
  exists path filename err, ResDownload path filename (Some err) ∈ tr.

(** A complete file went out as the response. *)
Definition file_streamed (tr : list Effect) : Prop :=
  exists path filename, ResDownload path filename None ∈ tr.

(** A JSON error body went out as the response. *)
Definition error_returned (tr : list Effect) : Prop :=
  exists status body, ResJson status body ∈ tr.

(** ** The handler, from [backend/src/index.ts] *)

(** The format selector passed after [-f]. *)
Definition format_selector : string :=
  "bestvideo[protocol=https][ext=mp4]+bestaudio[protocol=https][ext=m4a]/bestvideo[protocol=https][ext=webm]+bestaudio[protocol=https][ext=webm]/bestvideo[ext=mp4]+bestaudio[ext=m4a]/bestvideo[ext=webm]+bestaudio[ext=webm]/best".

Definition user_agent_header : string :=
  "user-agent:Mozilla/5.0 (Windows NT 10.0; Win64; x64) AppleWebKit/537.36 (KHTML, like Gecko) Chrome/124.0.0.0 Safari/537.36".

Definition bot_phrase : string := "Sign in to confirm you're not a bot".
Definition cookies_phrase : string := "cookies".

Definition missing_fields_message : string :=
  "url, startTime, and endTime are required".
Definition bot_detection_message : string :=
  "YouTube bot detection triggered. The cookies file may be expired or invalid.".

(** [`${code}`] for the exit code of the ['close'] event. *)
Definition show_code (code : option Z) : string :=
  match code with
  | Some c => show_Z c
  | None => "null"
  end.

Definition no_output_message (processStderr : string) : string :=
  "yt-dlp indicated success, but no output file was found. Stderr: " +:+ processStderr.
Definition failed_message (code : option Z) (processStderr : string) : string :=
  "yt-dlp failed with code " +:+ show_code code +:+ ". Stderr: " +:+ processStderr.

Section Handler.
(** Number::toString of the engine. *)
Variable number_to_string : float -> string.
(** [JSON.stringify(error, Object.getOwnPropertyNames(error))], which
    includes the engine's stack text. *)
Variable stringify_error : Thrown -> string.
(** [path.join(__dirname, "../uploads")] and
    [path.join(__dirname, "../src/cookies.txt")]. *)
Variable uploadsDir : string.
Variable cookiesFilePath : string.
Variable env : Env.

(** Lines 28-29. *)
Definition outputPath : string :=
  path_join uploadsDir ("clip-" +:+ show_Z (now env) +:+ ".mp4").

(** Lines 51-73. *)
Definition base_args (url : JsValue) (section : string) : list JsValue :=
  [ url;
    JString "-f";
    JString format_selector;
    JString "--download-sections";
    JString section;
    JString "-o";
    JString outputPath;
    JString "--no-check-certificates";
    JString "--no-warnings";
    JString "--add-header";
    JString "referer:youtube.com";
    JString "--add-header";
    JString user_agent_header;
    JString "--merge-output-format";
    JString "mp4";
    JString "--verbose";
    JString "--no-playlist";
    JString "--extractor-retries"; JString "3";
    JString "--ignore-errors";
    JString "--no-check-certificate";
    JString "--geo-bypass" ].

(** [cookieErr instanceof Error ? cookieErr.message : String(cookieErr)] *)
Definition thrown_text (t : Thrown) : string :=
  match t with
  | ThrownError e => message e
  | ThrownString s => s
  end.

(** Lines 76-91: the argument list after the cookies step. *)
Definition attach_cookies (ytDlpArgs : list JsValue) : Js (list JsValue) :=
  found ← existsSync cookiesFilePath;
  if (found : bool) then
    console_log ("Using cookies from: " +:+ cookiesFilePath);;
    try_catch
      (cookiesContent ← readFileSync cookiesFilePath;
       console_log ("Cookies file loaded successfully. Size: "
                     +:+ show_Z (Z.of_nat (String.length cookiesContent))
                     +:+ " bytes");;
       (if (String.length cookiesContent <? 10)%nat
        then console_warn "Warning: Cookies file seems too small and may be invalid"
        else mret tt);;
       mret (ytDlpArgs ++ [JString "--cookies"; JString cookiesFilePath]))
      (fun cookieErr =>
         console_error ("Error reading cookies file: " +:+ thrown_text cookieErr);;
         mret ytDlpArgs)
  else
    console_warn ("Cookies file not found at " +:+ cookiesFilePath
                   +:+ ". Proceeding without cookies.");;
    mret ytDlpArgs.

(** Line 94. *)
Definition spawn (command : string) (args : list JsValue)
    : Js (list ChildEvent * Ending) :=
  emit (Spawn command args);;
  match yt_dlp env args with
  | SpawnThrows t => throw t
  | Child events ending => mret (events, ending)
  end.

(** Lines 96-107: the two ['data'] listeners, run over the child's events
    in order; the result is [processStderr] and [processStdout]. *)
Fixpoint listen (events : list ChildEvent) (processStderr processStdout : string)
    : Js (string * string) :=
  match events with
  | [] => mret (processStderr, processStdout)
  | StderrData data :: rest =>
      console_error ("yt-dlp stderr: " +:+ data);;
      listen rest (processStderr +:+ data) processStdout
  | StdoutData data :: rest =>
      console_log ("yt-dlp stdout: " +:+ data);;
      listen rest processStderr (processStdout +:+ data)
  | ev :: rest =>
      child_acts ev;;
      listen rest processStderr processStdout
  end.

(** Lines 110-130: the ['close'] listener; [resolve()] is a normal return
    and [reject(e)] a throw at the [await]. *)
Definition on_close (code : option Z) (processStderr : string) : Js unit :=
  if bool_decide (code = Some 0%Z) then
    found ← existsSync outputPath;
    nonempty ← (if (found : bool)
                then sz ← statSync_size outputPath; mret (0 <? sz)%Z
                else mret false);
    if (nonempty : bool) then
      console_log ("yt-dlp download and clip successful: " +:+ outputPath)
    else
      console_error ("yt-dlp exited code 0 but output file missing or empty: "
                      +:+ outputPath);;
      throw (new_Error (no_output_message processStderr))
  else
    console_error ("yt-dlp process exited with code " +:+ show_code code
                    +:+ ". Stderr: " +:+ processStderr);;
    if includes processStderr bot_phrase || includes processStderr cookies_phrase
    then throw (new_Error bot_detection_message)
    else throw (new_Error (failed_message code processStderr)).

(** Lines 132-135: the ['error'] listener. *)
Definition on_error (err : JsError) : Js unit :=
  console_error "Failed to start yt-dlp process:";;
  throw (new_Error ("Failed to start yt-dlp: " +:+ message err)).

(** Lines 109-136: the awaited promise. *)
Definition await_child (ending : Ending) (processStderr : string) : Js unit :=
  match ending with
  | Closed code => on_close code processStderr
  | Errored err => on_error err
  | Hangs => suspend
  end.

(** [res.status(status).json(body)] *)
Definition res_json (status : Z) (body : JsonBody) : Js unit :=
  emit (ResJson status body).

(** How sending the file at [path] goes: it fails when the file cannot be
    opened, or when the transport breaks. *)
Definition send_failure (path : string) : Js (option JsError) :=
  fun w =>
    match disk w !! path with
    | None => (Normal (Some (enoent_error "stat" path)), w)
    | Some f =>
        match read_error f with
        | Some e => (Normal (Some e), w)
        | None => (Normal (transport_error env), w)
        end
    end.

(** [res.download(path, filename, callback)]: the file is sent, then the
    callback is called with the error, if any. *)
Definition res_download (path filename : string)
    (callback : option JsError -> Js unit) : Js unit :=
  failure ← send_failure path;
  emit (ResDownload path filename failure);;
  detached (callback failure).

(** What [fs.unlink] does to the disk. *)
Definition remove_file (path : string) : Js unit :=
  fun w =>
    match unlink_error env path with
    | Some e => (Throws (ThrownError e), w)
    | None =>
        match disk w !! path with
        | Some _ => (Normal tt, mkWorld (delete path (disk w)) (trace w))
        | None => (Throws (enoent "unlink" path), w)
        end
    end.

(** [await unlinkAsync(path)] *)
Definition unlinkAsync (path : string) : Js unit :=
  emit (Unlink path);;
  remove_file path.

(** Lines 146-160: the cleanup. *)
Definition cleanup : Js unit :=
  try_catch
    (found ← existsSync outputPath;
     (if (found : bool) then unlinkAsync outputPath else mret tt);;
     let partFilePath := outputPath +:+ ".part" in
     found ← existsSync partFilePath;
     (if (found : bool) then unlinkAsync partFilePath else mret tt);;
     console_log "Temporary file cleanup finished.")
    (fun cleanupErr => console_error "Cleanup error:").

(** Lines 141-161: the callback given to [res.download]. *)
Definition after_download (err : option JsError) : Js unit :=
  (if err is Some _ then console_error "Error sending file:" else mret tt);;
  cleanup.

(** Lines 172-179. *)
Definition error_details (error : Thrown) : string :=
  match error with
  | ThrownError e =>
      match own_property (extra e) "details" with
      | Some (JString details) => details
      | _ =>
          match own_property (extra e) "stderr" with
          | Some (JString stderr) => stderr
          | _ => "No additional details."
          end
      end
  | ThrownString _ => "No additional details."
  end.

(** Lines 162-186: the [catch] block.  Every value thrown in the [try]
    block is an [Error] or a string, so the default message
    "Failed to process video." is never the one sent. *)
Definition on_failure (error : Thrown) : Js unit :=
  console_error "Error during video processing:";;
  let errorMessage :=
    match error with
    | ThrownError e => message e
    | ThrownString s => s
    end in
  res_json 500 [ ("error", errorMessage);
                 ("details", error_details error);
                 ("fullError", stringify_error error) ].

(** Lines 93-161: spawn, listen, await, send. *)
Definition run_yt_dlp (ytDlpArgs : list JsValue) : Js unit :=
  ytDlp ← spawn "yt-dlp" ytDlpArgs;
  streams ← listen ytDlp.1 "" "";
  await_child ytDlp.2 streams.1;;
  console_log ("Processing complete. Clip available at: " +:+ outputPath);;
  res_download outputPath "clip.mp4" after_download.

(** Lines 41-161: what the [try] block does once the fields are there. *)
Definition process (url startTime endTime : JsValue) : Js unit :=
  url_text ← lift (ToString number_to_string url);
  console_log ("Attempting to download and clip video from " +:+ url_text);;
  console_log ("Output path: " +:+ outputPath);;
  start_text ← lift (ToString number_to_string startTime);
  end_text ← lift (ToString number_to_string endTime);
  let section := "*" +:+ start_text +:+ "-" +:+ end_text in
  ytDlpArgs ← attach_cookies (base_args url section);
  run_yt_dlp ytDlpArgs.

(** Lines 27-187: the handler of [POST /api/clip].  [body] is [req.body],
    the object that [express.json()] parsed: its own properties. *)
Definition clip (body : list (string * JsValue)) : Js unit :=
  try_catch
    (let url := get_property body "url" in
     let startTime := get_property body "startTime" in
     let endTime := get_property body "endTime" in
     if negb (truthy url) || negb (truthy startTime) || negb (truthy endTime) then
       res_json 400 [ ("error", missing_fields_message) ]
     else
       process url startTime endTime)
    on_failure.

(** One request, from the disk as it is when the request arrives to the
    world when the handler has nothing left to do. *)
Definition handle_clip (body : list (string * JsValue)) (d : Disk) : World :=
  snd (clip body (mkWorld d [])).

(** *** Vocabulary for the statements *)

(** The text a template literal makes of a value that converts. *)
Definition text_of (v : JsValue) : string :=
  match ToString number_to_string v with
  | Normal s => s
  | _ => ""
  end.

Definition converts (v : JsValue) : bool :=
  match ToString number_to_string v with
  | Normal _ => true
  | _ => false
  end.

(** The presence check of line 35 passes. *)
Definition fields_present (body : list (string * JsValue)) : bool :=
  truthy (get_property body "url")
  && truthy (get_property body "startTime")
  && truthy (get_property body "endTime").

(** A request that passes the presence check and whose three fields can
    be put into the log line and the section string. *)
Definition valid_request (body : list (string * JsValue)) : bool :=
  fields_present body
  && converts (get_property body "url")
  && converts (get_property body "startTime")
  && converts (get_property body "endTime").

(** The section string of a request. *)
Definition section_of (body : list (string * JsValue)) : string :=
  "*" +:+ text_of (get_property body "startTime")
      +:+ "-" +:+ text_of (get_property body "endTime").

(** The cookies file is there and opens. *)
Definition cookies_readable (d : Disk) : bool :=
  match d !! cookiesFilePath with
  | Some f => bool_decide (read_error f = None)
  | None => false
  end.

Definition cookie_args (d : Disk) : list JsValue :=
  if cookies_readable d
  then [JString "--cookies"; JString cookiesFilePath]
  else [].

(** The lines the cookies step prints. *)
Definition cookie_lines (d : Disk) : list Effect :=
  match d !! cookiesFilePath with
  | Some f =>
      Console LLog ("Using cookies from: " +:+ cookiesFilePath) ::
      match read_error f with
      | Some e => [Console LError ("Error reading cookies file: " +:+ message e)]
      | None =>
          Console LLog ("Cookies file loaded successfully. Size: "
                         +:+ show_Z (Z.of_nat (String.length (text f)))
                         +:+ " bytes") ::
          (if (String.length (text f) <? 10)%nat
           then [Console LWarn "Warning: Cookies file seems too small and may be invalid"]
           else [])
      end
  | None =>
      [Console LWarn ("Cookies file not found at " +:+ cookiesFilePath
                       +:+ ". Proceeding without cookies.")]
  end.

(** Everything printed before [spawn] is called. *)
Definition prelude (body : list (string * JsValue)) (d : Disk) : list Effect :=
  Console LLog ("Attempting to download and clip video from "
                 +:+ text_of (get_property body "url")) ::
  Console LLog ("Output path: " +:+ outputPath) ::
  cookie_lines d.

(** The argument list [spawn] is called with. *)
Definition spawn_args (body : list (string * JsValue)) (d : Disk)
    : list JsValue :=
  base_args (get_property body "url") (section_of body) ++ cookie_args d.

(** The body of the 500 response for a caught error. *)
Definition failure_body (error : Thrown) : JsonBody :=
  [ ("error", thrown_text error);
    ("details", error_details error);
    ("fullError", stringify_error error) ].

(** What the [catch] block adds to the trace. *)
Definition failure_effects (error : Thrown) : list Effect :=
  [ Console LError "Error during video processing:";
    ResJson 500 (failure_body error) ].

(** The message the non-zero branch rejects with. *)
Definition exit_message (code : option Z) (processStderr : string) : string :=
  if includes processStderr bot_phrase || includes processStderr cookies_phrase
  then bot_detection_message
  else failed_message code processStderr.

(** How the send of the output file goes on disk [d]. *)
Definition delivery (d : Disk) : option JsError :=
  match d !! outputPath with
  | None => Some (enoent_error "stat" outputPath)
  | Some f =>
      match read_error f with
      | Some e => Some e
      | None => transport_error env
      end
  end.

Definition partFilePath : string := outputPath +:+ ".part".

(** The second half of the cleanup, on disk [d]: what it does and the
    disk it leaves. *)
Definition part_cleanup (d : Disk) : list Effect * Disk :=
  match d !! partFilePath with
  | Some _ =>
      match unlink_error env partFilePath with
      | Some _ => ([Unlink partFilePath; Console LError "Cleanup error:"], d)
      | None =>
          ([Unlink partFilePath; Console LLog "Temporary file cleanup finished."],
           delete partFilePath d)
      end
  | None => ([Console LLog "Temporary file cleanup finished."], d)
  end.

(** The whole cleanup, on disk [d]. *)
Definition cleanup_result (d : Disk) : list Effect * Disk :=
  match d !! outputPath with
  | Some _ =>
      match unlink_error env outputPath with
      | Some _ => ([Unlink outputPath; Console LError "Cleanup error:"], d)
      | None =>
          let rest := part_cleanup (delete outputPath d) in
          (Unlink outputPath :: rest.1, rest.2)
      end
  | None => part_cleanup d
  end.

(** What the handler does from the send on, on disk [d]. *)
Definition send_effects (d : Disk) : list Effect :=
  ResDownload outputPath "clip.mp4" (delivery d) ::
  (if delivery d is Some _ then [Console LError "Error sending file:"] else [])
  ++ (cleanup_result d).1.

(** The output file is there and not empty. *)
Definition output_ready (d : Disk) : bool :=
  match d !! outputPath with
  | Some f => (0 <? size f)%Z
  | None => false
  end.

(** The disk as the child process leaves it, if one is started. *)
Definition disk_left_by_child (body : list (string * JsValue)) (d : Disk) : Disk :=
  if valid_request body then
    match yt_dlp env (spawn_args body d) with
    | Child events _ => disk_after events d
    | SpawnThrows _ => d
    end
  else d.

(** The child is started and never ends. *)
Definition child_hangs (body : list (string * JsValue)) (d : Disk) : Prop :=
  valid_request body = true /\
  exists events, yt_dlp env (spawn_args body d) = Child events Hangs.

Definition is_console (e : Effect) : Prop :=
  match e with
  | Console _ _ => True
  | _ => False
  end.

(** *** The ways one request can go

    [Run body d w]: the handler, given [body] on disk [d], can leave the
    world [w].  One constructor per path through the handler. *)
Inductive Run (body : list (string * JsValue)) (d : Disk) : World -> Prop :=
  | run_rejected :
      fields_present body = false ->
      Run body d (mkWorld d [ResJson 400 [("error", missing_fields_message)]])
  | run_unconvertible lines :
      fields_present body = true ->
      valid_request body = false ->
      Forall is_console lines ->
      Run body d (mkWorld d (lines ++ failure_effects cannot_convert))
  | run_spawn_throws t :
      valid_request body = true ->
      yt_dlp env (spawn_args body d) = SpawnThrows t ->
      Run body d
        (mkWorld d (prelude body d ++ Spawn "yt-dlp" (spawn_args body d)
                      :: failure_effects t))
  | run_hangs events :
      valid_request body = true ->
      yt_dlp env (spawn_args body d) = Child events Hangs ->
      Run body d
        (mkWorld (disk_after events d)
           (prelude body d ++ Spawn "yt-dlp" (spawn_args body d)
              :: listen_lines events))
  | run_errored events err :
      valid_request body = true ->
      yt_dlp env (spawn_args body d) = Child events (Errored err) ->
      Run body d
        (mkWorld (disk_after events d)
           (prelude body d ++ Spawn "yt-dlp" (spawn_args body d)
              :: listen_lines events
              ++ Console LError "Failed to start yt-dlp process:"
              :: failure_effects
                   (new_Error ("Failed to start yt-dlp: " +:+ message err))))
  | run_exit_nonzero events code :
      valid_request body = true ->
      yt_dlp env (spawn_args body d) = Child events (Closed code) ->
      code <> Some 0%Z ->
      Run body d
        (mkWorld (disk_after events d)
           (prelude body d ++ Spawn "yt-dlp" (spawn_args body d)
              :: listen_lines events
              ++ Console LError ("yt-dlp process exited with code "
                                  +:+ show_code code +:+ ". Stderr: "
                                  +:+ stderr_of events)
              :: failure_effects
                   (new_Error (exit_message code (stderr_of events)))))
  | run_no_output events :
      valid_request body = true ->
      yt_dlp env (spawn_args body d) = Child events (Closed (Some 0%Z)) ->
      output_ready (disk_after events d) = false ->
      Run body d
        (mkWorld (disk_after events d)
           (prelude body d ++ Spawn "yt-dlp" (spawn_args body d)
              :: listen_lines events
              ++ Console LError
                   ("yt-dlp exited code 0 but output file missing or empty: "
                     +:+ outputPath)
              :: failure_effects
                   (new_Error (no_output_message (stderr_of events)))))
  | run_sent events :
      valid_request body = true ->
      yt_dlp env (spawn_args body d) = Child events (Closed (Some 0%Z)) ->
      output_ready (disk_after events d) = true ->
      Run body d
        (mkWorld (cleanup_result (disk_after events d)).2
           (prelude body d ++ Spawn "yt-dlp" (spawn_args body d)
              :: listen_lines events
              ++ Console LLog ("yt-dlp download and clip successful: "
                                +:+ outputPath)
              :: Console LLog ("Processing complete. Clip available at: "
                                +:+ outputPath)
              :: send_effects (disk_after events d))).
End Handler.

(** ** The fallback chain in the spec's words *)

Inductive Track : Type := Video | Audio.

(** "best <track>, over HTTPS only or any protocol, in container <ext>" *)
Record Selector : Type := mkSelector {
  track : Track;
  https_only : bool;
  ext : string
}.

(** One alternative of the chain: a video and an audio selector merged, or
    the generic best. *)
Inductive Alternative : Type :=
  | Merge (video audio : Selector)
  | Best.

Definition print_selector (s : Selector) : string :=
  (match track s with Video => "bestvideo" | Audio => "bestaudio" end)
  +:+ (if https_only s then "[protocol=https]" else "")
  +:+ "[ext=" +:+ ext s +:+ "]".

Definition print_alternative (a : Alternative) : string :=
  match a with
  | Merge v a => print_selector v +:+ "+" +:+ print_selector a
  | Best => "best"
  end.

(** An ordered OR-list is written with [/] between the alternatives. *)
Definition print_chain (chain : list Alternative) : string :=
  String.concat "/" (map print_alternative chain).

(** Follows the spec's words: HTTPS mp4 video + m4a audio, then HTTPS
    webm + webm, then any-protocol mp4 + m4a, then any-protocol webm + webm,
    then generic best. *)
Definition fallback_chain : list Alternative :=
  [ Merge (mkSelector Video true "mp4") (mkSelector Audio true "m4a");
    Merge (mkSelector Video true "webm") (mkSelector Audio true "webm");
    Merge (mkSelector Video false "mp4") (mkSelector Audio false "m4a");
    Merge (mkSelector Video false "webm") (mkSelector Audio false "webm");
    Best ].

(** ** What a request comes to, as functions of its inputs *)

Section Outcome.
Variable number_to_string : float -> string.
Variable stringify_error : Thrown -> string.
Variable uploadsDir : string.
Variable cookiesFilePath : string.
Variable env : Env.

(** The disk at the send step, when the request gets there: the child
    closed with code 0 and left an output file that is not empty. *)
Definition send_disk (body : list (string * JsValue)) (d : Disk) : option Disk :=
  if valid_request number_to_string body then
    match yt_dlp env (spawn_args number_to_string uploadsDir cookiesFilePath env body d) with
    | Child events (Closed code) =>
        if bool_decide (code = Some 0%Z)
           && output_ready uploadsDir env (disk_after events d)
        then Some (disk_after events d)
        else None
    | _ => None
    end
  else None.

(** The error the [catch] block receives, when it receives one. *)
Definition caught_error (body : list (string * JsValue)) (d : Disk)
    : option Thrown :=
  if negb (fields_present body) then None
  else if negb (valid_request number_to_string body) then Some cannot_convert
  else
    match yt_dlp env (spawn_args number_to_string uploadsDir cookiesFilePath env body d) with
    | SpawnThrows t => Some t
    | Child events Hangs => None
    | Child events (Errored err) =>
        Some (new_Error ("Failed to start yt-dlp: " +:+ message err))
    | Child events (Closed code) =>
        if bool_decide (code = Some 0%Z) then
          if output_ready uploadsDir env (disk_after events d) then None
          else Some (new_Error (no_output_message (stderr_of events)))
        else Some (new_Error (exit_message code (stderr_of events)))
    end.

(** The responses of a request, from its inputs. *)
Definition expected_responses (body : list (string * JsValue)) (d : Disk)
    : list Effect :=
  if negb (fields_present body) then
    [ResJson 400 [("error", missing_fields_message)]]
  else
    match caught_error body d with
    | Some t => [ResJson 500 (failure_body stringify_error t)]
    | None =>
        match send_disk body d with
        | Some d1 =>
            [ResDownload (outputPath uploadsDir env) "clip.mp4"
               (delivery uploadsDir env d1)]
        | None => []
        end
    end.
End Outcome.


(** The child with its stdout closed: the same events without the chunks
    on stdout, and the same ending. *)
Definition mute_stdout_child (c : ChildProcess) : ChildProcess :=
  match c with
  | SpawnThrows t => SpawnThrows t
  | Child events ending =>
      Child (List.filter
               (fun ev => match ev with StdoutData _ => false | _ => true end)
               events)
            ending
  end.

Definition mute_stdout (env : Env) : Env :=
  mkEnv (now env) (fun args => mute_stdout_child (yt_dlp env args))
    (transport_error env) (unlink_error env).

(** A response without its [fullError] field. *)
Definition without_full_error (e : Effect) : Effect :=
  match e with
  | ResJson status json =>
      ResJson status
        (List.filter (fun field => negb (String.eqb field.1 "fullError")) json)
  | _ => e
  end.

(** The same environment with another fate for the send. *)
Definition set_transport_error (t : option JsError) (env : Env) : Env :=
  mkEnv (now env) (yt_dlp env) t (unlink_error env).

(** The last character of a string. *)
Fixpoint last_char (s : string) : option Ascii.ascii :=
  match s with
  | EmptyString => None
  | String c EmptyString => Some c
  | String _ rest => last_char rest
  end.

(** ** Concrete requests, for the examples *)

(** A stand-in for the engine's number printing; no example prints a
    number. *)
Definition sample_number_to_string (x : float) : string := "NaN".

(** A stand-in for the serialisation in [fullError]. *)
Definition sample_stringify (t : Thrown) : string := "{}".

Definition sample_uploads : string := "/app/uploads".
Definition sample_cookies : string := "/app/src/cookies.txt".
Definition sample_time : Z := 1700000000000.
Definition sample_output : string := "/app/uploads/clip-1700000000000.mp4".
Definition sample_part : string := "/app/uploads/clip-1700000000000.mp4.part".

(** The request of the spec's end-to-end example. *)
Definition sample_body : list (string * JsValue) :=
  [ ("url", JString "https://example.com/video");
    ("startTime", JString "00:00:10");
    ("endTime", JString "00:00:20") ].

(** A request whose url is the text of the credential flag. *)
Definition flag_url_body : list (string * JsValue) :=
  [ ("url", JString "--cookies");
    ("startTime", JString "00:00:10");
    ("endTime", JString "00:00:20") ].

(** A 100-byte clip. *)
Definition sample_clip : File := mkFile 100 "" None.

Definition eacces : JsError := mkError "EACCES: permission denied" [].
Definition epipe : JsError := mkError "write EPIPE" [].

(** A tool that writes nothing and closes with code 0. *)
Definition silent_env : Env :=
  mkEnv sample_time (fun _ => Child [] (Closed (Some 0%Z))) None (fun _ => None).

(** A tool that writes the clip and closes with code 0. *)
Definition stub_env : Env :=
  mkEnv sample_time
    (fun _ => Child [WritesFile sample_output sample_clip] (Closed (Some 0%Z)))
    None (fun _ => None).

(** A tool that is refused by the site and closes with code 1. *)
Definition refused_events : list ChildEvent :=
  [ StderrData "ERROR: [youtube] abc: ";
    StderrData "Sign in to confirm you're not a bot." ].
Definition refused_env : Env :=
  mkEnv sample_time (fun _ => Child refused_events (Closed (Some 1%Z)))
    None (fun _ => None).

(** A tool that fails on the network and closes with code 1. *)
Definition failed_events : list ChildEvent :=
  [ StdoutData "[youtube] Extracting URL: https://example.com/video";
    StderrData "ERROR: unable to download video data: ";
    StderrData "HTTP Error 403: Forbidden" ].
Definition failed_env : Env :=
  mkEnv sample_time (fun _ => Child failed_events (Closed (Some 1%Z)))
    None (fun _ => None).

(** A tool that leaves the clip and a [.part] file, on a disk where
    nothing can be deleted. *)
Definition leftover_events : list ChildEvent :=
  [ WritesFile sample_part sample_clip; WritesFile sample_output sample_clip ].
Definition locked_env : Env :=
  mkEnv sample_time (fun _ => Child leftover_events (Closed (Some 0%Z)))
    None (fun _ => Some eacces).

(** A tool that prints a line and then neither closes nor fails. *)
Definition hung_env : Env :=
  mkEnv sample_time (fun _ => Child [StdoutData "[download] 12%"] Hangs)
    None (fun _ => None).

(** A tool that writes the clip, and a client that goes away during the
    send. *)
Definition broken_send_env : Env :=
  mkEnv sample_time
    (fun _ => Child [WritesFile sample_output sample_clip] (Closed (Some 0%Z)))
    (Some epipe) (fun _ => None).

(** A machine without the program: the child only emits ['error']. *)
Definition enoent_spawn : JsError := mkError "spawn yt-dlp ENOENT" [].
Definition missing_tool_env : Env :=
  mkEnv sample_time (fun _ => Child [] (Errored enoent_spawn)) None (fun _ => None).

(** A [spawn] that throws on the spot. *)
Definition invalid_arg : JsError :=
  mkError "The argument 'args[0]' must be a string without null bytes."
    [("code", JString "ERR_INVALID_ARG_VALUE")].
Definition throwing_env : Env :=
  mkEnv sample_time (fun _ => SpawnThrows (ThrownError invalid_arg))
    None (fun _ => None).

(** A request whose [startTime] is an object with its own [toString]. *)
Definition object_time_body : list (string * JsValue) :=
  [ ("url", JString "https://example.com/video");
    ("startTime", JObject [("toString", JNull)]);
    ("endTime", JString "00:00:20") ].

(** The refused tool again, printing the same text in other chunks and
    with progress lines on stdout. *)
Definition rechunked_events : list ChildEvent :=
  [ StdoutData "[youtube] Extracting URL";
    StderrData "ERROR: [youtube] abc: Sign in to confirm you";
    StdoutData "[youtube] abc: Downloading webpage";
    StderrData "'re not a bot." ].
Definition rechunked_env : Env :=
  mkEnv sample_time (fun _ => Child rechunked_events (Closed (Some 1%Z)))
    None (fun _ => None).

(** The stub tool one millisecond later. *)
Definition later_env : Env :=
  mkEnv (sample_time + 1)
    (fun _ => Child [WritesFile "/app/uploads/clip-1700000000001.mp4" sample_clip]
                (Closed (Some 0%Z)))
    None (fun _ => None).

Definition sample_handle (env : Env) (body : list (string * JsValue)) (d : Disk)
    : World :=
  handle_clip sample_number_to_string sample_stringify sample_uploads
    sample_cookies env body d.

Definition sample_args (env : Env) (body : list (string * JsValue)) (d : Disk)
    : list JsValue :=
  spawn_args sample_number_to_string sample_uploads sample_cookies env body d.

(** * Properties *)

(** ** Strings *)

Lemma append_cons (c : Ascii.ascii) (s t : string) :
  String c s +:+ t = String c (s +:+ t).
Proof. reflexivity. Qed.

Lemma append_empty_l (s : string) : "" +:+ s = s.
Proof. reflexivity. Qed.

Lemma append_empty_r (s : string) : s +:+ "" = s.
Proof. induction s as [|c s IH]; [reflexivity|]. by rewrite append_cons, IH. Qed.

Lemma append_assoc (a b c : string) : (a +:+ b) +:+ c = a +:+ (b +:+ c).
Proof. induction a as [|x a IH]; [reflexivity|]. by rewrite !append_cons, IH. Qed.

Lemma prefix_append (t rest : string) : String.prefix t (t +:+ rest) = true.
Proof.
  induction t as [|c t IH].
  - by destruct rest.
  - rewrite append_cons. simpl.
    destruct (Ascii.ascii_dec c c) as [_|ne]; [exact IH | by destruct ne].
Qed.

Lemma prefix_split (t s : string) :
  String.prefix t s = true -> exists rest, s = t +:+ rest.
Proof.
  revert s. induction t as [|c t IH]; intros s H.
  - by exists s.
  - destruct s as [|c' s]; simpl in H; [discriminate|].
    destruct (Ascii.ascii_dec c c') as [->|]; [|discriminate].
    destruct (IH s H) as [rest ->]. by exists rest.
Qed.


Lemma includes_unfold (s t : string) :
  includes s t =
    String.prefix t s
    || match s with EmptyString => false | String _ s' => includes s' t end.
Proof. by destruct s. Qed.

(** [includes] decides occurrence. *)
Lemma includes_occurs (s t : string) : includes s t = true <-> occurs_in t s.
Proof.
  split.
  - induction s as [|c s IH]; intros H; rewrite includes_unfold in H;
      apply orb_true_iff in H as [H|H]; try discriminate.
    + destruct (prefix_split _ _ H) as [rest E]. exists "", rest. exact E.
    + destruct (prefix_split _ _ H) as [rest E]. exists "", rest. exact E.
    + destruct (IH H) as (before & after & ->).
      by exists (String c before), after.
  - intros (before & after & ->).
    induction before as [|c before IH].
    + rewrite append_empty_l, includes_unfold, prefix_append. reflexivity.
    + rewrite append_cons. simpl. rewrite IH. apply orb_true_r.
Qed.

Lemma to_int_proper (z : Z) :
  Z.to_int z <> Decimal.Pos Decimal.Nil /\ Z.to_int z <> Decimal.Neg Decimal.Nil.
Proof.
  destruct z as [|q|q]; cbn; split; try discriminate;
    intros [= H]; by apply (DecimalPos.Unsigned.to_uint_nonnil q).
Qed.

(** The decimal text determines the number. *)
Lemma show_Z_inj (a b : Z) : show_Z a = show_Z b -> a = b.
Proof.
  unfold show_Z. intros H. apply DecimalZ.to_int_inj.
  destruct (to_int_proper a) as [Ha1 Ha2], (to_int_proper b) as [Hb1 Hb2].
  pose proof (NilZero.isi _ Ha1 Ha2) as Ia.
  pose proof (NilZero.isi _ Hb1 Hb2) as Ib.
  rewrite H in Ia. rewrite Ia in Ib. by injection Ib.
Qed.

(** ** Values *)

(** Induction on values that goes through the elements of an array. *)
Lemma JsValue_nested_ind (P : JsValue -> Prop) :
  P JUndefined -> P JNull -> (forall b, P (JBool b)) ->
  (forall x, P (JNumber x)) -> (forall s, P (JString s)) ->
  (forall items, Forall P items -> P (JArray items)) ->
  (forall props, P (JObject props)) ->
  forall v, P v.
Proof.
  intros Hu Hn Hb Hx Hs Ha Ho.
  fix IH 1. intros [| |b|x|s|items|props].
  - exact Hu.
  - exact Hn.
  - apply Hb.
  - apply Hx.
  - apply Hs.
  - apply Ha. induction items as [|v items IHitems]; constructor.
    + apply IH.
    + exact IHitems.
  - apply Ho.
Qed.

(** A conversion ends at once: with a text, or with the one TypeError. *)
Lemma ToString_cases (nts : float -> string) (v : JsValue) :
  (exists s, ToString nts v = Normal s) \/ ToString nts v = Throws cannot_convert.
Proof.
  induction v as [| |b|x|s|items IH|props] using JsValue_nested_ind;
    try (left; eexists; reflexivity).
  - induction IH as [|v items Hv _ IHitems].
    + left. by exists "".
    + cbn [ToString] in *.
      assert (Hfirst :
        (exists s, match v with
                   | JUndefined | JNull => Normal ""
                   | _ => ToString nts v
                   end = Normal s)
        \/ match v with
           | JUndefined | JNull => Normal ""
           | _ => ToString nts v
           end = Throws cannot_convert).
      { destruct v; try exact Hv; left; by exists "". }
      destruct Hfirst as [[s ->] | ->]; [|by right].
      destruct items as [|v' items]; [left; by exists s|].
      destruct IHitems as [[r ->] | ->]; [left; by eexists | by right].
  - cbn [ToString]. destruct (own_property props "toString"); [by right|].
    left. by eexists.
Qed.

Lemma converts_text (nts : float -> string) (v : JsValue) :
  converts nts v = true -> ToString nts v = Normal (text_of nts v).
Proof. unfold converts, text_of. by destruct (ToString nts v). Qed.

Lemma converts_throws (nts : float -> string) (v : JsValue) :
  converts nts v = false -> ToString nts v = Throws cannot_convert.
Proof.
  unfold converts. destruct (ToString_cases nts v) as [[s ->] | ->]; done.
Qed.

(** ** Running the monad *)

Ltac trace_norm :=
  repeat (rewrite <- app_assoc); cbn [app];
  repeat (rewrite <- app_assoc); cbn [app].

Lemma run_bind {A B} (m : Js A) (k : A -> Js B) (w : World) :
  (m ≫= k) w =
    match m w with
    | (Normal a, w') => k a w'
    | (Throws t, w') => (Throws t, w')
    | (Suspended, w') => (Suspended, w')
    end.
Proof. reflexivity. Qed.

Lemma run_mret {A} (a : A) (w : World) : (mret a : Js A) w = (Normal a, w).
Proof. reflexivity. Qed.

Lemma run_emit (e : Effect) (w : World) :
  emit e w = (Normal tt, mkWorld (disk w) (trace w ++ [e])).
Proof. reflexivity. Qed.

Lemma responses_app (t1 t2 : list Effect) :
  responses (t1 ++ t2) = responses t1 ++ responses t2.
Proof. apply List.filter_app. Qed.

Lemma unlinked_app (t1 t2 : list Effect) :
  unlinked (t1 ++ t2) = unlinked t1 ++ unlinked t2.
Proof.
  induction t1 as [|e t1 IH]; [reflexivity|].
  destruct e; simpl; by rewrite IH.
Qed.

Lemma spawns_app (t1 t2 : list Effect) :
  spawns (t1 ++ t2) = spawns t1 ++ spawns t2.
Proof. apply List.filter_app. Qed.

Lemma spawn_count_app (t1 t2 : list Effect) :
  spawn_count (t1 ++ t2) = (spawn_count t1 + spawn_count t2)%nat.
Proof. unfold spawn_count. by rewrite spawns_app, length_app. Qed.

Section Correctness.
Variable number_to_string : float -> string.
Variable stringify_error : Thrown -> string.
Variable uploadsDir : string.
Variable cookiesFilePath : string.
Variable env : Env.

Local Abbreviation handle :=
  (handle_clip number_to_string stringify_error uploadsDir cookiesFilePath env).
Local Abbreviation out := (outputPath uploadsDir env).

Lemma listen_run events err0 out0 w :
  listen events err0 out0 w =
    (Normal (err0 +:+ stderr_of events, out0 +:+ stdout_of events),
     mkWorld (disk_after events (disk w)) (trace w ++ listen_lines events)).
Proof.
  revert err0 out0 w.
  induction events as [|ev rest IH]; intros err0 out0 w.
  - simpl. rewrite run_mret, !append_empty_r, app_nil_r. by destruct w.
  - destruct ev; simpl; rewrite run_bind; simpl; rewrite IH; simpl;
      rewrite <- ?app_assoc, ?append_assoc; reflexivity.
Qed.

Lemma attach_cookies_run args w :
  attach_cookies cookiesFilePath args w =
    (Normal (args ++ cookie_args cookiesFilePath (disk w)),
     mkWorld (disk w) (trace w ++ cookie_lines cookiesFilePath (disk w))).
Proof.
  destruct w as [d tr].
  unfold attach_cookies, cookie_args, cookie_lines, cookies_readable.
  rewrite run_bind. cbn [existsSync disk trace].
  destruct (d !! cookiesFilePath) as [f|] eqn:Hf.
  - rewrite bool_decide_true by eauto.
    unfold console_log. rewrite run_bind, run_emit. cbn [disk trace].
    unfold try_catch, readFileSync. rewrite run_bind. cbn [disk trace].
    rewrite Hf. destruct (read_error f) as [e|] eqn:He.
    + rewrite bool_decide_false by done.
      unfold console_error. rewrite run_bind, run_emit, run_mret.
      cbn [disk trace thrown_text]. by rewrite app_nil_r, <- app_assoc.
    + rewrite bool_decide_true by done.
      rewrite run_bind, run_emit. cbn [disk trace].
      destruct (String.length (text f) <? 10)%nat;
        unfold console_warn;
        rewrite !run_bind, ?run_emit, !run_mret; cbn [disk trace];
        by rewrite <- !app_assoc.
  - rewrite bool_decide_false by (intros [? ?]; done).
    unfold console_warn. rewrite run_bind, run_emit, run_mret.
    cbn [disk trace]. by rewrite app_nil_r.
Qed.

Local Abbreviation run :=
  (run_yt_dlp uploadsDir env).
Local Abbreviation failure_effects' :=
  (failure_effects stringify_error).

Lemma on_failure_run error w :
  on_failure stringify_error error w =
    (Normal tt, mkWorld (disk w) (trace w ++ failure_effects' error)).
Proof.
  unfold on_failure, console_error, res_json, failure_effects, failure_body.
  rewrite run_bind, !run_emit. cbn [disk trace].
  rewrite <- app_assoc. by destruct error.
Qed.

Lemma yt_dlp_throws args t w :
  yt_dlp env args = SpawnThrows t ->
  run args w = (Throws t, mkWorld (disk w) (trace w ++ [Spawn "yt-dlp" args])).
Proof.
  intros H. unfold run_yt_dlp, spawn.
  rewrite !run_bind, run_emit, H. reflexivity.
Qed.

(** Up to the [await]: the call, then the listeners over the events. *)
Lemma yt_dlp_child args events ending w :
  yt_dlp env args = Child events ending ->
  run args w =
    (await_child uploadsDir env ending (stderr_of events) ;;
     console_log ("Processing complete. Clip available at: " +:+ out) ;;
     res_download env out "clip.mp4" (after_download uploadsDir env))
      (mkWorld (disk_after events (disk w))
               (trace w ++ Spawn "yt-dlp" args :: listen_lines events)).
Proof.
  intros H. unfold run_yt_dlp, spawn.
  rewrite !run_bind, run_emit, H, run_mret. cbn [fst snd].
  rewrite !run_bind, listen_run. cbn [disk trace fst snd].
  rewrite <- app_assoc. reflexivity.
Qed.

Lemma yt_dlp_hangs args events w :
  yt_dlp env args = Child events Hangs ->
  run args w =
    (Suspended,
     mkWorld (disk_after events (disk w))
             (trace w ++ Spawn "yt-dlp" args :: listen_lines events)).
Proof. intros H. by rewrite (yt_dlp_child _ _ _ _ H). Qed.

Lemma yt_dlp_errored args events err w :
  yt_dlp env args = Child events (Errored err) ->
  run args w =
    (Throws (new_Error ("Failed to start yt-dlp: " +:+ message err)),
     mkWorld (disk_after events (disk w))
             (trace w ++ Spawn "yt-dlp" args :: listen_lines events
                      ++ [Console LError "Failed to start yt-dlp process:"])).
Proof.
  intros H. rewrite (yt_dlp_child _ _ _ _ H).
  unfold await_child, on_error, console_error.
  rewrite !run_bind, run_emit. cbn [disk trace throw].
  by rewrite <- app_assoc.
Qed.

Lemma yt_dlp_exit_nonzero args events code w :
  yt_dlp env args = Child events (Closed code) ->
  code <> Some 0%Z ->
  run args w =
    (Throws (new_Error (exit_message code (stderr_of events))),
     mkWorld (disk_after events (disk w))
             (trace w ++ Spawn "yt-dlp" args :: listen_lines events
                ++ [Console LError ("yt-dlp process exited with code "
                                     +:+ show_code code +:+ ". Stderr: "
                                     +:+ stderr_of events)])).
Proof.
  intros H Hcode. rewrite (yt_dlp_child _ _ _ _ H).
  unfold await_child, on_close, console_error, exit_message.
  rewrite bool_decide_false by done.
  rewrite !run_bind, run_emit. cbn [disk trace].
  rewrite <- app_assoc.
  by destruct (includes _ bot_phrase || includes _ cookies_phrase).
Qed.

Lemma yt_dlp_exit_zero_no_output args events w :
  yt_dlp env args = Child events (Closed (Some 0%Z)) ->
  output_ready uploadsDir env (disk_after events (disk w)) = false ->
  run args w =
    (Throws (new_Error (no_output_message (stderr_of events))),
     mkWorld (disk_after events (disk w))
             (trace w ++ Spawn "yt-dlp" args :: listen_lines events
                ++ [Console LError
                      ("yt-dlp exited code 0 but output file missing or empty: "
                        +:+ out)])).
Proof.
  intros H Hout. rewrite (yt_dlp_child _ _ _ _ H).
  unfold await_child, on_close, console_error, existsSync, statSync_size.
  rewrite bool_decide_true by done.
  unfold output_ready in Hout.
  rewrite !run_bind. cbn [disk trace].
  destruct (disk_after events (disk w) !! out) as [f|] eqn:Hf.
  - rewrite bool_decide_true by eauto.
    rewrite !run_bind. cbn [disk trace]. rewrite Hf, run_mret, Hout.
    rewrite run_bind, run_emit. cbn [disk trace throw].
    by rewrite <- app_assoc.
  - rewrite bool_decide_false by (intros [? ?]; done).
    rewrite run_mret, run_bind, run_emit. cbn [disk trace throw].
    by rewrite <- app_assoc.
Qed.

Lemma cleanup_run w :
  cleanup uploadsDir env w =
    (Normal tt,
     mkWorld (cleanup_result uploadsDir env (disk w)).2
             (trace w ++ (cleanup_result uploadsDir env (disk w)).1)).
Proof.
  destruct w as [d tr].
  unfold cleanup, cleanup_result, part_cleanup, partFilePath, try_catch,
    unlinkAsync, remove_file, existsSync, console_log, console_error.
  rewrite !run_bind. cbn [disk trace].
  destruct (d !! out) as [f|] eqn:Hf.
  - rewrite bool_decide_true by eauto.
    rewrite !run_bind, run_emit. cbn [disk trace].
    destruct (unlink_error env out) as [e|] eqn:He.
    + rewrite run_emit. cbn [disk trace fst snd]. by rewrite <- app_assoc.
    + rewrite Hf. rewrite !run_bind. cbn [disk trace].
      destruct (delete out d !! (out +:+ ".part")) as [g|] eqn:Hg.
      * rewrite bool_decide_true by eauto.
        rewrite !run_bind, run_emit. cbn [disk trace].
        destruct (unlink_error env (out +:+ ".part")) as [e|] eqn:He'.
        -- rewrite run_emit. cbn [disk trace fst snd]. by rewrite <- !app_assoc.
        -- rewrite Hg, run_emit. cbn [disk trace fst snd]. by rewrite <- !app_assoc.
      * rewrite bool_decide_false by (intros [? ?]; done).
        rewrite run_mret, run_emit. cbn [disk trace fst snd].
        by rewrite <- !app_assoc.
  - rewrite bool_decide_false by (intros [? ?]; done).
    rewrite run_mret, !run_bind. cbn [disk trace].
    destruct (d !! (out +:+ ".part")) as [g|] eqn:Hg.
    + rewrite bool_decide_true by eauto.
      rewrite !run_bind, run_emit. cbn [disk trace].
      destruct (unlink_error env (out +:+ ".part")) as [e|] eqn:He'.
      * rewrite run_emit. cbn [disk trace fst snd]. by rewrite <- !app_assoc.
      * rewrite Hg, run_emit. cbn [disk trace fst snd]. by rewrite <- !app_assoc.
    + rewrite bool_decide_false by (intros [? ?]; done).
      rewrite run_mret, run_emit. reflexivity.
Qed.

(** The callback of [res.download] always runs to its end. *)
Lemma after_download_run err w :
  after_download uploadsDir env err w =
    (Normal tt,
     mkWorld (cleanup_result uploadsDir env (disk w)).2
             (trace w
                ++ (if err is Some _ then [Console LError "Error sending file:"] else [])
                ++ (cleanup_result uploadsDir env (disk w)).1)).
Proof.
  unfold after_download, console_error. rewrite run_bind.
  destruct err; rewrite ?run_emit, ?run_mret, cleanup_run; cbn [disk trace].
  - by rewrite <- app_assoc.
  - reflexivity.
Qed.

Lemma res_download_run w :
  res_download env out "clip.mp4" (after_download uploadsDir env) w =
    (Normal tt,
     mkWorld (cleanup_result uploadsDir env (disk w)).2
             (trace w ++ send_effects uploadsDir env (disk w))).
Proof.
  unfold res_download, send_failure, detached, send_effects, delivery.
  rewrite !run_bind. cbn [disk trace].
  destruct (disk w !! out) as [f|]; [destruct (read_error f)|];
    rewrite run_bind, run_emit, after_download_run; cbn [disk trace fst snd];
    by rewrite <- !app_assoc.
Qed.

Lemma yt_dlp_exit_zero_ok args events w :
  yt_dlp env args = Child events (Closed (Some 0%Z)) ->
  output_ready uploadsDir env (disk_after events (disk w)) = true ->
  run args w =
    (Normal tt,
     mkWorld (cleanup_result uploadsDir env (disk_after events (disk w))).2
             (trace w ++ Spawn "yt-dlp" args :: listen_lines events
                ++ Console LLog ("yt-dlp download and clip successful: " +:+ out)
                :: Console LLog ("Processing complete. Clip available at: " +:+ out)
                :: send_effects uploadsDir env (disk_after events (disk w)))).
Proof.
  intros H Hout. rewrite (yt_dlp_child _ _ _ _ H).
  unfold await_child, on_close, console_log, existsSync, statSync_size.
  rewrite bool_decide_true by done.
  unfold output_ready in Hout.
  rewrite !run_bind. cbn [disk trace].
  destruct (disk_after events (disk w) !! out) as [f|] eqn:Hf; [|discriminate].
  rewrite bool_decide_true by eauto.
  rewrite !run_bind. cbn [disk trace]. rewrite Hf, run_mret, Hout.
  rewrite !run_emit. cbn [disk trace].
  rewrite run_bind, run_emit, res_download_run.
  cbn [disk trace]. by rewrite <- !app_assoc.
Qed.

Local Abbreviation clip' :=
  (clip number_to_string stringify_error uploadsDir cookiesFilePath env).
Local Abbreviation process' :=
  (process number_to_string uploadsDir cookiesFilePath env).
Local Abbreviation valid := (valid_request number_to_string).
Local Abbreviation prelude' :=
  (prelude number_to_string uploadsDir cookiesFilePath env).
Local Abbreviation spawn_args' :=
  (spawn_args number_to_string uploadsDir cookiesFilePath env).
Local Abbreviation Run' :=
  (Run number_to_string stringify_error uploadsDir cookiesFilePath env).

(** A valid request gets as far as [spawn], with these arguments. *)
Lemma process_valid body w :
  valid body = true ->
  process' (get_property body "url") (get_property body "startTime")
           (get_property body "endTime") w =
    run (spawn_args' body (disk w))
        (mkWorld (disk w) (trace w ++ prelude' body (disk w))).
Proof.
  unfold valid_request. rewrite !andb_true_iff.
  intros [[[_ Hu] Hs] He].
  unfold process, lift, console_log.
  rewrite run_bind, (converts_text _ _ Hu).
  do 2 (rewrite run_bind, run_emit; cbn [disk trace]).
  rewrite run_bind, (converts_text _ _ Hs).
  rewrite run_bind, (converts_text _ _ He).
  rewrite run_bind, attach_cookies_run. cbn [disk trace].
  unfold spawn_args, section_of, prelude.
  by rewrite <- !app_assoc.
Qed.

(** A request whose fields are there but do not all convert stops with the
    TypeError before anything but log lines. *)
Lemma process_unconvertible body w :
  valid body = false ->
  fields_present body = true ->
  exists lines,
    Forall is_console lines /\
    process' (get_property body "url") (get_property body "startTime")
             (get_property body "endTime") w =
      (Throws cannot_convert, mkWorld (disk w) (trace w ++ lines)).
Proof.
  unfold valid_request. intros Hv Hp. rewrite Hp in Hv.
  unfold process, lift, console_log.
  destruct (converts number_to_string (get_property body "url")) eqn:Hu.
  - exists [Console LLog ("Attempting to download and clip video from "
                          +:+ text_of number_to_string (get_property body "url"));
            Console LLog ("Output path: " +:+ out)].
    split; [repeat constructor|].
    rewrite run_bind, (converts_text _ _ Hu).
    do 2 (rewrite run_bind, run_emit; cbn [disk trace]).
    rewrite run_bind, <- app_assoc.
    destruct (converts number_to_string (get_property body "startTime")) eqn:Hs.
    + destruct (converts number_to_string (get_property body "endTime")) eqn:He;
        [discriminate|].
      by rewrite (converts_text _ _ Hs), run_bind, (converts_throws _ _ He).
    + by rewrite (converts_throws _ _ Hs).
  - exists []. split; [constructor|].
    rewrite !run_bind, (converts_throws _ _ Hu), app_nil_r. by destruct w.
Qed.

(** Every request goes one of the ways of [Run]. *)
Lemma handle_runs body d : Run' body d (handle body d).
Proof.
  unfold handle_clip, clip, try_catch.
  destruct (fields_present body) eqn:Hp.
  - pose proof Hp as Hq. unfold fields_present in Hq.
    rewrite !andb_true_iff in Hq.
    destruct Hq as [[-> ->] ->]. cbn [negb orb].
    destruct (valid body) eqn:Hv.
    + rewrite (process_valid _ _ Hv). cbn [disk trace app].
      destruct (yt_dlp env (spawn_args' body d)) as [t|events ending] eqn:Hc.
      * rewrite (yt_dlp_throws _ _ _ Hc), on_failure_run. cbn [disk trace snd].
        trace_norm. by apply run_spawn_throws.
      * destruct ending as [code|err|].
        -- destruct (decide (code = Some 0%Z)) as [->|Hcode].
           ++ destruct (output_ready uploadsDir env (disk_after events d)) eqn:Ho.
              ** rewrite (yt_dlp_exit_zero_ok _ _ _ Hc) by exact Ho.
                 cbn [disk trace snd]. by apply run_sent.
              ** rewrite (yt_dlp_exit_zero_no_output _ _ _ Hc) by exact Ho.
                 rewrite on_failure_run. cbn [disk trace snd].
                 trace_norm. by apply run_no_output.
           ++ rewrite (yt_dlp_exit_nonzero _ _ _ _ Hc) by exact Hcode.
              rewrite on_failure_run. cbn [disk trace snd].
              trace_norm. by apply run_exit_nonzero.
        -- rewrite (yt_dlp_errored _ _ _ _ Hc), on_failure_run.
           cbn [disk trace snd]. trace_norm. by apply run_errored.
        -- rewrite (yt_dlp_hangs _ _ _ Hc). cbn [disk trace snd].
           by apply run_hangs.
    + destruct (process_unconvertible body (mkWorld d []) Hv Hp)
        as (lines & Hl & ->).
      rewrite on_failure_run. cbn [disk trace snd app].
      by apply run_unconvertible.
  - assert (Hneg : negb (truthy (get_property body "url"))
                   || negb (truthy (get_property body "startTime"))
                   || negb (truthy (get_property body "endTime")) = true).
    { unfold fields_present in Hp.
      destruct (truthy (get_property body "url")),
               (truthy (get_property body "startTime")),
               (truthy (get_property body "endTime")); done. }
    rewrite Hneg. unfold res_json. rewrite run_emit. cbn [disk trace snd app].
    by apply run_rejected.
Qed.

(** ** What the pieces of a trace contain *)

Lemma console_quiet (t : list Effect) :
  Forall (is_console) t ->
  responses t = [] /\ unlinked t = [] /\ spawns t = [].
Proof.
  induction 1 as [|e t He _ (IH1 & IH2 & IH3)]; [done|].
  destruct e; try done; simpl; auto.
Qed.

Lemma listen_lines_console (events : list ChildEvent) :
  Forall is_console (listen_lines events).
Proof.
  induction events as [|ev rest IH]; [constructor|].
  destruct ev; simpl; auto; by constructor.
Qed.

Lemma cookie_lines_console (d : Disk) :
  Forall is_console (cookie_lines cookiesFilePath d).
Proof.
  unfold cookie_lines.
  destruct (d !! cookiesFilePath) as [f|]; [|by repeat constructor].
  destruct (read_error f); [by repeat constructor|].
  destruct (String.length (text f) <? 10)%nat; by repeat constructor.
Qed.

Lemma prelude_console body d : Forall is_console (prelude' body d).
Proof. unfold prelude. repeat constructor. apply cookie_lines_console. Qed.

Lemma responses_console (t : list Effect) :
  Forall is_console t -> responses t = [].
Proof. intros H. by destruct (console_quiet t H). Qed.

Lemma unlinked_console (t : list Effect) :
  Forall is_console t -> unlinked t = [].
Proof. intros H. by destruct (console_quiet t H) as (_ & ? & _). Qed.

Lemma spawns_console (t : list Effect) :
  Forall is_console t -> spawns t = [].
Proof. intros H. by destruct (console_quiet t H) as (_ & _ & ?). Qed.

Lemma spawns_send (d : Disk) : spawns (send_effects uploadsDir env d) = [].
Proof.
  unfold send_effects, cleanup_result, part_cleanup.
  destruct (delivery uploadsDir env d);
    repeat (case_match; cbn [fst snd]); reflexivity.
Qed.

Lemma unlinked_send (d : Disk) :
  unlinked (send_effects uploadsDir env d)
    = unlinked (cleanup_result uploadsDir env d).1.
Proof. unfold send_effects. by destruct (delivery uploadsDir env d). Qed.

Lemma responses_cleanup (d : Disk) :
  responses (cleanup_result uploadsDir env d).1 = [].
Proof.
  unfold cleanup_result, part_cleanup.
  repeat (case_match; cbn [fst snd]); reflexivity.
Qed.

Lemma responses_send (d : Disk) :
  responses (send_effects uploadsDir env d)
    = [ResDownload out "clip.mp4" (delivery uploadsDir env d)].
Proof.
  unfold send_effects. change (?e :: ?l) with ([e] ++ l).
  rewrite !responses_app, responses_cleanup.
  by destruct (delivery uploadsDir env d).
Qed.

Lemma valid_present body : valid body = true -> fields_present body = true.
Proof. unfold valid_request. rewrite !andb_true_iff. tauto. Qed.

(** Splits on the way the request went, dropping the ways the hypotheses
    exclude and identifying the child's events with the ones at hand. *)
Ltac by_run body d :=
  let Hr := fresh "Hr" in
  let w := fresh "w" in
  let Hw := fresh "Hw" in
  pose proof (handle_runs body d) as Hr;
  remember (handle_clip _ _ _ _ _ body d) as w eqn:Hw; clear Hw;
  destruct Hr;
  try match goal with
      | H : valid_request _ _ = true |- _ => pose proof (valid_present _ H)
      end;
  try congruence;
  repeat match goal with
         | H1 : yt_dlp ?e ?a = _, H2 : yt_dlp ?e ?a = _ |- _ =>
             rewrite H1 in H2; simplify_eq
         end;
  try congruence.

(** Computes the responses of a trace put together from known pieces. *)
Ltac responses_of_run :=
  cbn [trace disk];
  repeat first
    [ rewrite responses_app
    | rewrite responses_send
    | rewrite (responses_console _ (prelude_console _ _))
    | rewrite (responses_console _ (listen_lines_console _))
    | progress cbn [responses List.filter is_response app failure_effects] ].

Ltac spawns_of_run :=
  cbn [trace disk];
  repeat first
    [ rewrite spawns_app
    | rewrite spawns_send
    | rewrite (spawns_console _ (prelude_console _ _))
    | rewrite (spawns_console _ (listen_lines_console _))
    | progress cbn [spawns List.filter is_spawn app failure_effects] ].

Ltac unlinked_of_run :=
  cbn [trace disk];
  repeat first
    [ rewrite unlinked_app
    | rewrite unlinked_send
    | rewrite (unlinked_console _ (prelude_console _ _))
    | rewrite (unlinked_console _ (listen_lines_console _))
    | progress cbn [unlinked app failure_effects] ].

Lemma presence_false (body : list (string * JsValue)) :
  truthy (get_property body "url") = false
  \/ truthy (get_property body "startTime") = false
  \/ truthy (get_property body "endTime") = false ->
  fields_present body = false.
Proof.
  unfold fields_present. intros [-> | [-> | ->]];
    rewrite ?andb_false_r; reflexivity.
Qed.

Lemma rejected_run body d :
  fields_present body = false ->
  handle body d = mkWorld d [ResJson 400 [("error", missing_fields_message)]].
Proof.
  intros Hp. pose proof (handle_runs body d) as Hr.
  remember (handle body d) as w eqn:Hw. clear Hw.
  destruct Hr; [reflexivity | congruence | ..];
    match goal with
    | H : valid_request _ _ = true |- _ =>
        unfold valid_request in H; rewrite Hp in H; discriminate
    end.
Qed.

(** C1. Whenever one of [url], [startTime], [endTime] is missing from the
    body, the handler answers 400 with [{error: "url, startTime, and endTime
    are required"}], that is its only response, and [spawn] is never
    called. *)
Theorem missing_field_rejected (body : list (string * JsValue)) (d : Disk) :
  own_property body "url" = None
  \/ own_property body "startTime" = None
  \/ own_property body "endTime" = None ->
  responses (trace (handle body d))
    = [ResJson 400 [("error", missing_fields_message)]]
  /\ spawn_count (trace (handle body d)) = 0%nat.
Proof.
  intros Hmissing. rewrite rejected_run; [done|].
  apply presence_false. unfold get_property.
  destruct Hmissing as [-> | [-> | ->]]; auto.
Qed.

(** C8. The presence check is a truthiness test: a [startTime] or [endTime]
    that is present but is the number 0 or the empty string is answered
    like a missing field, with the 400 response and no [spawn]. *)
Theorem falsy_time_rejected (body : list (string * JsValue)) (d : Disk)
    (v : JsValue) :
  v = JNumber 0 \/ v = JString "" ->
  own_property body "startTime" = Some v
  \/ own_property body "endTime" = Some v ->
  responses (trace (handle body d))
    = [ResJson 400 [("error", missing_fields_message)]]
  /\ spawn_count (trace (handle body d)) = 0%nat.
Proof.
  intros Hv Hfield. rewrite rejected_run; [done|].
  apply presence_false. unfold get_property.
  destruct Hfield as [-> | ->]; destruct Hv as [-> | ->]; auto.
Qed.

Lemma output_ready_spec (d : Disk) :
  output_ready uploadsDir env d = true <->
  exists f, d !! out = Some f /\ (0 < size f)%Z.
Proof.
  unfold output_ready. destruct (d !! out) as [f|].
  - rewrite Z.ltb_lt. split; [by exists f | by intros (? & [= <-] & ?)].
  - split; [done | by intros (? & ? & _)].
Qed.

(** C2. When the child closes with code 0 the handler looks for the output
    file on the disk the child left: if the file is there with a size above
    zero, the one response is the download of that file; if it is absent or
    its size is not above zero, the one response is the 500 error whose
    message is "yt-dlp indicated success, but no output file was found.
    Stderr: " followed by the accumulated stderr, and nothing is sent as a
    file. *)
Theorem exit_zero_output_checked (body : list (string * JsValue)) (d : Disk)
    (events : list ChildEvent) :
  valid body = true ->
  yt_dlp env (spawn_args' body d) = Child events (Closed (Some 0%Z)) ->
  let tr := trace (handle body d) in
  let d1 := disk_after events d in
  let msg := no_output_message (stderr_of events) in
  ((exists f, d1 !! out = Some f /\ (0 < size f)%Z) ->
     responses tr = [ResDownload out "clip.mp4" (delivery uploadsDir env d1)])
  /\ (d1 !! out = None \/ (exists f, d1 !! out = Some f /\ (size f <= 0)%Z) ->
       responses tr
         = [ResJson 500 [("error", msg);
                         ("details", "No additional details.");
                         ("fullError", stringify_error (new_Error msg))]]
       /\ occurs_in (stderr_of events) msg
       /\ ~ file_streamed tr /\ (forall p n e, ResDownload p n e ∉ tr)).
Proof.
  intros Hv Hc tr d1 msg. subst tr d1 msg. split.
  - intros Hready. apply output_ready_spec in Hready.
    by_run body d. responses_of_run. reflexivity.
  - intros Hbad.
    assert (Hready : output_ready uploadsDir env (disk_after events d) = false).
    { apply not_true_is_false. rewrite output_ready_spec.
      intros (f & Hf & Hsize).
      destruct Hbad as [Hnone | (g & Hg & Hle)]; [congruence|].
      rewrite Hf in Hg. injection Hg as <-. lia. }
    assert (Hresp : responses (trace (handle body d))
         = [ResJson 500 (failure_body stringify_error
              (new_Error (no_output_message (stderr_of events))))]).
    { by_run body d. responses_of_run. reflexivity. }
    split; [exact Hresp|]. split.
    + exists "yt-dlp indicated success, but no output file was found. Stderr: ", "".
      by rewrite append_empty_r.
    + assert (Hnone : forall p n e,
                ResDownload p n e ∉ trace (handle body d)).
      { intros p n e Hin.
        assert (Hin' : ResDownload p n e ∈ responses (trace (handle body d))).
        { unfold responses. apply list_elem_of_In, List.filter_In.
          split; [by apply list_elem_of_In | reflexivity]. }
        rewrite Hresp in Hin'. apply list_elem_of_singleton in Hin'. discriminate. }
      split; [|exact Hnone].
      intros (p & n & Hin). by apply (Hnone p n None).
Qed.

(** A valid request calls [spawn] once, with [spawn_args]. *)
Lemma valid_spawns body d :
  valid body = true ->
  spawns (trace (handle body d)) = [Spawn "yt-dlp" (spawn_args' body d)].
Proof. intros Hv. by_run body d; spawns_of_run; reflexivity. Qed.

Lemma nonzero_exit_response body d events code :
  valid body = true ->
  yt_dlp env (spawn_args' body d) = Child events (Closed code) ->
  code <> Some 0%Z ->
  responses (trace (handle body d))
    = [ResJson 500 (failure_body stringify_error
         (new_Error (exit_message code (stderr_of events))))].
Proof. intros Hv Hc Hcode. by_run body d. responses_of_run. reflexivity. Qed.

Lemma flagged_includes (processStderr : string) :
  includes processStderr bot_phrase || includes processStderr cookies_phrase = true
  <-> occurs_in bot_phrase processStderr \/ occurs_in cookies_phrase processStderr.
Proof. by rewrite orb_true_iff, !includes_occurs. Qed.

Lemma failed_message_code code processStderr :
  occurs_in (show_code code) (failed_message code processStderr).
Proof. by exists "yt-dlp failed with code ", (". Stderr: " +:+ processStderr). Qed.

Lemma failed_message_stderr code processStderr :
  occurs_in processStderr (failed_message code processStderr).
Proof.
  exists ("yt-dlp failed with code " +:+ show_code code +:+ ". Stderr: "), "".
  unfold failed_message. by rewrite append_empty_r, !append_assoc.
Qed.

Lemma messages_distinct code processStderr :
  bot_detection_message <> failed_message code processStderr.
Proof. unfold bot_detection_message, failed_message. discriminate. Qed.

(** C3. When the child closes with a code other than 0 the one response is a
    500 error.  Its message is the credential message "YouTube bot detection
    triggered. The cookies file may be expired or invalid." exactly when the
    accumulated stderr contains "Sign in to confirm you're not a bot" or
    "cookies"; otherwise it is "yt-dlp failed with code <code>. Stderr:
    <stderr>", where <code> is the decimal text of the exit code ("null"
    for a child killed by a signal), from which the code can be read back,
    and <stderr> the accumulated stderr.  The two messages are never
    equal. *)
Theorem nonzero_exit_classified (body : list (string * JsValue)) (d : Disk)
    (events : list ChildEvent) (code : option Z) :
  valid body = true ->
  yt_dlp env (spawn_args' body d) = Child events (Closed code) ->
  code <> Some 0%Z ->
  let processStderr := stderr_of events in
  let flagged :=
    occurs_in "Sign in to confirm you're not a bot" processStderr
    \/ occurs_in "cookies" processStderr in
  let code_text :=
    match code with
    | Some c => NilZero.string_of_int (Z.to_int c)
    | None => "null"
    end in
  let credential :=
    "YouTube bot detection triggered. The cookies file may be expired or invalid." in
  let generic :=
    "yt-dlp failed with code " +:+ code_text +:+ ". Stderr: " +:+ processStderr in
  exists msg,
    responses (trace (handle body d))
      = [ResJson 500 [("error", msg);
                      ("details", "No additional details.");
                      ("fullError", stringify_error (new_Error msg))]]
    /\ (msg = credential <-> flagged)
    /\ (flagged -> msg = credential)
    /\ (~ flagged -> msg = generic)
    /\ occurs_in code_text generic
    /\ occurs_in processStderr generic
    /\ (forall c, code = Some c ->
          option_map Z.of_int (NilZero.int_of_string code_text) = Some c)
    /\ credential <> generic.
Proof.
  intros Hv Hc Hcode processStderr flagged code_text credential generic.
  exists (exit_message code processStderr).
  split; [by apply nonzero_exit_response|].
  pose proof (flagged_includes processStderr) as Hflag.
  pose proof (messages_distinct code processStderr) as Hne.
  change (failed_message code processStderr) with generic in Hne.
  change bot_detection_message with credential in Hne.
  assert (Hmsg : (exit_message code processStderr = credential <-> flagged)
                 /\ (flagged -> exit_message code processStderr = credential)
                 /\ (~ flagged -> exit_message code processStderr = generic)).
  { unfold exit_message.
    destruct (includes processStderr bot_phrase
              || includes processStderr cookies_phrase) eqn:Hi.
    - assert (Hyes : flagged) by (by apply Hflag).
      split; [done|]. split; [done | by intros Hnot].
    - assert (Hnot : ~ flagged) by (intros Hf; apply Hflag in Hf; discriminate).
      split; [|split; [tauto | done]].
      split; [intros Heq; by destruct Hne | tauto]. }
  destruct Hmsg as (Hiff & Hthen & Helse).
  split; [exact Hiff|]. split; [exact Hthen|]. split; [exact Helse|].
  split; [exact (failed_message_code code processStderr)|].
  split; [exact (failed_message_stderr code processStderr)|].
  split; [|exact Hne].
  intros c ->. subst code_text. cbn beta iota.
  destruct (to_int_proper c) as [H1 H2].
  rewrite (NilZero.isi _ H1 H2). cbn [option_map].
  by rewrite DecimalZ.of_to.
Qed.

Lemma format_selector_chain : format_selector = print_chain fallback_chain.
Proof. reflexivity. Qed.


Lemma has_char_append (c : Ascii.ascii) (a b : string) :
  has_char c (a +:+ b) = has_char c a || has_char c b.
Proof.
  induction a as [|x a IH]; [reflexivity|].
  rewrite append_cons. simpl. by rewrite IH, orb_assoc.
Qed.

Lemma output_path_not_flag : JString "--cookies" <> JString out.
Proof.
  intros [= H]. apply (f_equal (has_char "/"%char)) in H.
  unfold outputPath, path_join in H.
  rewrite !has_char_append in H. simpl in H.
  rewrite orb_true_r in H. discriminate.
Qed.

(** None of the arguments the handler itself puts after the url is the
    credential flag. *)
Lemma no_flag_in_fixed_args url section :
  JString "--cookies" ∉ tail (base_args uploadsDir env url ("*" +:+ section)).
Proof.
  unfold base_args. cbn [tail].
  rewrite !not_elem_of_cons. repeat split; try discriminate.
  - apply output_path_not_flag.
  - apply not_elem_of_nil.
Qed.

Lemma valid_starts_with_prelude body d :
  valid body = true ->
  exists rest, trace (handle body d) = prelude' body d ++ rest.
Proof. intros Hv. by_run body d; cbn [trace]; eauto. Qed.

(** C9. The credential verdict looks at the stderr text only.  With no
    cookies file on disk the child is started with the 22 base arguments,
    none of which after the url is [--cookies], and if it closes with a
    code other than 0 and its stderr contains "cookies" or "Sign in to
    confirm you're not a bot", the response is still the 500 error
    "YouTube bot detection triggered. The cookies file may be expired or
    invalid.". *)
Theorem cookie_verdict_without_cookie_file (body : list (string * JsValue))
    (d : Disk) (events : list ChildEvent) (code : option Z) :
  valid body = true ->
  d !! cookiesFilePath = None ->
  yt_dlp env (spawn_args' body d) = Child events (Closed code) ->
  code <> Some 0%Z ->
  occurs_in "cookies" (stderr_of events)
  \/ occurs_in "Sign in to confirm you're not a bot" (stderr_of events) ->
  let verdict :=
    "YouTube bot detection triggered. The cookies file may be expired or invalid." in
  (exists args,
     spawns (trace (handle body d)) = [Spawn "yt-dlp" args]
     /\ args = base_args uploadsDir env (get_property body "url")
                 (section_of number_to_string body)
     /\ length args = 22%nat
     /\ JString "--cookies" ∉ tail args)
  /\ responses (trace (handle body d))
      = [ResJson 500
           [("error", verdict);
            ("details", "No additional details.");
            ("fullError", stringify_error (new_Error verdict))]].
Proof.
  intros Hv Hnone Hc Hcode Hphrase verdict. split.
  - exists (base_args uploadsDir env (get_property body "url")
              (section_of number_to_string body)).
    split.
    { rewrite (valid_spawns _ _ Hv).
      unfold spawn_args, cookie_args, cookies_readable.
      by rewrite Hnone, app_nil_r. }
    split; [reflexivity|]. split; [reflexivity|].
    apply no_flag_in_fixed_args.
  - rewrite (nonzero_exit_response _ _ _ _ Hv Hc Hcode).
    unfold exit_message.
    assert (Hi : includes (stderr_of events) bot_phrase
                 || includes (stderr_of events) cookies_phrase = true).
    { apply flagged_includes. tauto. }
    by rewrite Hi.
Qed.

(** C5 (as the code has it). For a valid request [spawn] is called once.
    If the cookies file is there and can be read, the argument list is the
    base list followed by [--cookies] and the path, and a content shorter
    than 10 only adds a warning line; if the file is there but cannot be
    read, or is not there, the argument list is the base list alone: the
    url then the 21 fixed arguments, none of which is the credential flag.
    The url itself is passed as it came. *)
Theorem cookies_attached_when_readable (body : list (string * JsValue))
    (d : Disk) :
  valid body = true ->
  let base :=
    base_args uploadsDir env (get_property body "url")
      (section_of number_to_string body) in
  let tr := trace (handle body d) in
  exists args,
    spawns tr = [Spawn "yt-dlp" args]
    /\ (forall f, d !! cookiesFilePath = Some f -> read_error f = None ->
          args = base ++ [JString "--cookies"; JString cookiesFilePath]
          /\ ((String.length (text f) < 10)%nat ->
               Console LWarn "Warning: Cookies file seems too small and may be invalid"
                 ∈ tr))
    /\ (forall f e, d !! cookiesFilePath = Some f -> read_error f = Some e ->
          args = base)
    /\ (d !! cookiesFilePath = None -> args = base)
    /\ length base = 22%nat
    /\ JString "--cookies" ∉ tail base.
Proof.
  intros Hv base tr. exists (spawn_args' body d).
  split; [by apply valid_spawns|].
  unfold spawn_args, cookie_args, cookies_readable. fold base.
  split; [|split; [|split; [|split]]].
  - intros f Hf Hread. rewrite Hf, bool_decide_true by done.
    split; [reflexivity|]. intros Hsmall.
    destruct (valid_starts_with_prelude body d Hv) as [rest Hrest].
    subst tr. rewrite Hrest. apply elem_of_app. left.
    unfold prelude, cookie_lines. rewrite Hf, Hread.
    apply Nat.ltb_lt in Hsmall. rewrite Hsmall.
    rewrite !elem_of_cons. do 4 right. by left.
  - intros f e Hf Hread. rewrite Hf, bool_decide_false by congruence.
    apply app_nil_r.
  - intros Hnone. rewrite Hnone. apply app_nil_r.
  - reflexivity.
  - apply no_flag_in_fixed_args.
Qed.

Lemma length_append (a b : string) :
  String.length (a +:+ b) = (String.length a + String.length b)%nat.
Proof.
  induction a as [|x a IH]; [reflexivity|].
  rewrite append_cons. simpl. by rewrite IH.
Qed.

Lemma part_path_differs : partFilePath uploadsDir env <> out.
Proof.
  unfold partFilePath. intros H. apply (f_equal String.length) in H.
  rewrite length_append in H. simpl in H. lia.
Qed.

Lemma cleanup_unlinks_output (d1 : Disk) :
  is_Some (d1 !! out) -> out ∈ unlinked (cleanup_result uploadsDir env d1).1.
Proof.
  intros [f Hf]. unfold cleanup_result. rewrite Hf.
  destruct (unlink_error env out); cbn [fst unlinked]; apply elem_of_cons; by left.
Qed.

Lemma cleanup_unlinks_part (d1 : Disk) :
  is_Some (d1 !! partFilePath uploadsDir env) ->
  d1 !! out = None \/ unlink_error env out = None ->
  partFilePath uploadsDir env ∈ unlinked (cleanup_result uploadsDir env d1).1.
Proof.
  intros [g Hg] Hfirst.
  assert (Hpart : forall d2, d2 !! partFilePath uploadsDir env = Some g ->
            partFilePath uploadsDir env
              ∈ unlinked (part_cleanup uploadsDir env d2).1).
  { intros d2 Hd2. unfold part_cleanup. rewrite Hd2.
    destruct (unlink_error env (partFilePath uploadsDir env));
      cbn [fst unlinked]; apply elem_of_cons; by left. }
  unfold cleanup_result. destruct (d1 !! out) as [f|] eqn:Hf.
  - destruct Hfirst as [? | ->]; [done|].
    cbn [fst unlinked]. apply elem_of_cons. right.
    apply Hpart. rewrite lookup_delete_ne; [done|].
    intros H. by apply part_path_differs.
  - by apply Hpart.
Qed.

Lemma sent_run_trace body d events :
  valid body = true ->
  yt_dlp env (spawn_args' body d) = Child events (Closed (Some 0%Z)) ->
  output_ready uploadsDir env (disk_after events d) = true ->
  responses (trace (handle body d))
    = [ResDownload out "clip.mp4" (delivery uploadsDir env (disk_after events d))]
  /\ unlinked (trace (handle body d))
      = unlinked (cleanup_result uploadsDir env (disk_after events d)).1.
Proof.
  intros Hv Hc Hready. by_run body d. split.
  - responses_of_run. reflexivity.
  - unlinked_of_run. reflexivity.
Qed.

(** C6 (as the code has it). Once the send step is reached, whether the
    send then succeeds or breaks, the download is the only response, the
    handler tries to delete the output file, and, unless that deletion
    failed, it tries to delete the [.part] file if there is one.  No failed
    deletion changes the response. *)
Theorem cleanup_after_send (body : list (string * JsValue)) (d : Disk)
    (events : list ChildEvent) :
  valid body = true ->
  yt_dlp env (spawn_args' body d) = Child events (Closed (Some 0%Z)) ->
  output_ready uploadsDir env (disk_after events d) = true ->
  let tr := trace (handle body d) in
  let d1 := disk_after events d in
  responses tr = [ResDownload out "clip.mp4" (delivery uploadsDir env d1)]
  /\ is_Some (d1 !! out)
  /\ out ∈ unlinked tr
  /\ (is_Some (d1 !! (out +:+ ".part")) ->
      unlink_error env out = None ->
      (out +:+ ".part") ∈ unlinked tr).
Proof.
  intros Hv Hc Hready tr d1. subst tr d1.
  destruct (sent_run_trace body d events Hv Hc Hready) as [Hresp Hunl].
  assert (Hout : is_Some (disk_after events d !! out)).
  { apply output_ready_spec in Hready as (f & Hf & _). by exists f. }
  split; [exact Hresp|]. split; [exact Hout|]. rewrite Hunl. split.
  - by apply cleanup_unlinks_output.
  - intros Hpart Hok. apply cleanup_unlinks_part; auto.
Qed.

Lemma response_in_responses (e : Effect) (tr : list Effect) :
  e ∈ tr -> is_response e = true -> e ∈ responses tr.
Proof.
  intros Hin He. unfold responses.
  apply list_elem_of_In, List.filter_In. split; [by apply list_elem_of_In | done].
Qed.

(** The client gets at most one response, and none only when the child
    never ends. *)
Lemma responses_shape body d :
  (exists path filename,
     responses (trace (handle body d)) = [ResDownload path filename None])
  \/ (exists status json,
        responses (trace (handle body d)) = [ResJson status json])
  \/ (exists path filename err,
        responses (trace (handle body d)) = [ResDownload path filename (Some err)])
  \/ (responses (trace (handle body d)) = []
       /\ child_hangs number_to_string uploadsDir cookiesFilePath env body d).
Proof.
  by_run body d.
  - right. left. by eexists _, _.
  - right. left. responses_of_run.
    match goal with
    | H : Forall is_console ?l |- _ => rewrite (responses_console l H)
    end.
    by eexists _, _.
  - right. left. responses_of_run. by eexists _, _.
  - right. right. right. responses_of_run. split; [reflexivity|].
    split; [done|]. by eexists.
  - right. left. responses_of_run. by eexists _, _.
  - right. left. responses_of_run. by eexists _, _.
  - right. left. responses_of_run. by eexists _, _.
  - responses_of_run.
    destruct (delivery uploadsDir env (disk_after events d)) as [err|].
    + right. right. left. by eexists _, _, _.
    + left. by eexists _, _.
Qed.

(** C7 (as the code has it). A request never gets both a streamed file and
    an error response, and never more than one response.  It gets exactly
    one of: the complete file; one JSON error; a send that was started and
    broke, which is only logged; or nothing at all, when the child process
    never ends. *)
Theorem one_outcome (body : list (string * JsValue)) (d : Disk) :
  let tr := trace (handle body d) in
  ~ (file_streamed tr /\ error_returned tr)
  /\ (length (responses tr) <= 1)%nat
  /\ ((exists path filename, responses tr = [ResDownload path filename None])
      \/ (exists status json, responses tr = [ResJson status json])
      \/ (exists path filename err,
            responses tr = [ResDownload path filename (Some err)])
      \/ (responses tr = []
           /\ child_hangs number_to_string uploadsDir cookiesFilePath env body d)).
Proof.
  intros tr. subst tr. pose proof (responses_shape body d) as Hshape.
  split; [|split; [|exact Hshape]].
  - intros [(p & n & Hfile) (st & json & Herr)].
    apply response_in_responses in Hfile; [|reflexivity].
    apply response_in_responses in Herr; [|reflexivity].
    destruct Hshape as [(? & ? & H) | [(? & ? & H) | [(? & ? & ? & H) | [H _]]]];
      rewrite H in Hfile, Herr;
      try apply list_elem_of_singleton in Hfile;
      try apply list_elem_of_singleton in Herr;
      try discriminate.
    by apply elem_of_nil in Hfile.
  - destruct Hshape as [(? & ? & H) | [(? & ? & H) | [(? & ? & ? & H) | [H _]]]];
      rewrite H; simpl; lia.
Qed.

Lemma not_present_not_valid body :
  fields_present body = false -> valid body = false.
Proof. intros H. unfold valid_request. by rewrite H. Qed.

(** C10. A request answered with an error response (400 or 500) has no
    deletion attempted at all, and the disk is left exactly as the child
    process left it (or as it was, when no child was started): whatever the
    child wrote stays. *)
Theorem no_cleanup_on_error (body : list (string * JsValue)) (d : Disk) :
  error_returned (trace (handle body d)) ->
  unlinked (trace (handle body d)) = []
  /\ disk (handle body d)
      = disk_left_by_child number_to_string uploadsDir cookiesFilePath env body d
  /\ (forall path f,
        disk_left_by_child number_to_string uploadsDir cookiesFilePath env body d
          !! path = Some f ->
        disk (handle body d) !! path = Some f).
Proof.
  intros (st & json & Herr).
  apply response_in_responses in Herr; [|reflexivity].
  assert (Hmain : unlinked (trace (handle body d)) = []
    /\ disk (handle body d)
        = disk_left_by_child number_to_string uploadsDir cookiesFilePath env body d).
  { unfold disk_left_by_child. revert Herr. by_run body d; intros Herr.
    - rewrite not_present_not_valid by done. done.
    - match goal with H : valid_request _ _ = false |- _ => rewrite H end.
      split; [|done]. unlinked_of_run.
      match goal with
      | H : Forall is_console ?l |- _ => by rewrite (unlinked_console l H)
      end.
    - match goal with H : valid_request _ _ = true |- _ => rewrite H end.
      match goal with H : yt_dlp _ _ = _ |- _ => rewrite H end.
      split; [|done]. unlinked_of_run. reflexivity.
    - exfalso. revert Herr. responses_of_run. apply not_elem_of_nil.
    - match goal with H : valid_request _ _ = true |- _ => rewrite H end.
      match goal with H : yt_dlp _ _ = _ |- _ => rewrite H end.
      split; [|done]. unlinked_of_run. reflexivity.
    - match goal with H : valid_request _ _ = true |- _ => rewrite H end.
      match goal with H : yt_dlp _ _ = _ |- _ => rewrite H end.
      split; [|done]. unlinked_of_run. reflexivity.
    - match goal with H : valid_request _ _ = true |- _ => rewrite H end.
      match goal with H : yt_dlp _ _ = _ |- _ => rewrite H end.
      split; [|done]. unlinked_of_run. reflexivity.
    - exfalso. revert Herr. responses_of_run.
      intros Herr. apply list_elem_of_singleton in Herr. discriminate. }
  destruct Hmain as [Hunl Hdisk].
  split; [exact Hunl|]. split; [exact Hdisk|].
  intros path f. by rewrite Hdisk.
Qed.

(** Deletions happen only after a send. *)
Lemma unlink_only_after_send body d path :
  path ∈ unlinked (trace (handle body d)) ->
  exists failure,
    responses (trace (handle body d)) = [ResDownload out "clip.mp4" failure].
Proof.
  by_run body d; intros Hin.
  - by apply elem_of_nil in Hin.
  - exfalso. revert Hin. unlinked_of_run.
    match goal with
    | H : Forall is_console ?l |- _ => rewrite (unlinked_console l H)
    end.
    apply not_elem_of_nil.
  - exfalso. revert Hin. unlinked_of_run. apply not_elem_of_nil.
  - exfalso. revert Hin. unlinked_of_run. apply not_elem_of_nil.
  - exfalso. revert Hin. unlinked_of_run. apply not_elem_of_nil.
  - exfalso. revert Hin. unlinked_of_run. apply not_elem_of_nil.
  - exfalso. revert Hin. unlinked_of_run. apply not_elem_of_nil.
  - eexists. responses_of_run. reflexivity.
Qed.
End Correctness.

(** * Concrete requests *)

Example truthy_values :
  truthy (JNumber 0) = false /\ truthy (JNumber (-0)) = false
  /\ truthy (JNumber nan) = false /\ truthy (JNumber 0.5) = true
  /\ truthy (JString "") = false /\ truthy (JString "0") = true
  /\ truthy JNull = false /\ truthy (JArray []) = true.
Proof. repeat split. Qed.

Example to_string_values :
  ToString sample_number_to_string
    (JArray [JString "a"; JNull; JArray [JBool true; JObject []]])
    = Normal "a,,true,[object Object]"
  /\ ToString sample_number_to_string (JObject [("toString", JNull)])
      = Throws cannot_convert.
Proof. split; reflexivity. Qed.

Example includes_values :
  includes "ERROR: pass --cookies-from-browser" cookies_phrase = true
  /\ includes "ERROR: unable to download" cookies_phrase = false
  /\ includes "" "" = true.
Proof. repeat split. Qed.

Example sample_output_path :
  outputPath sample_uploads stub_env = sample_output
  /\ partFilePath sample_uploads stub_env = sample_part.
Proof. split; reflexivity. Qed.

(** A field that passes the presence check but cannot be put into the
    section string ends in the 500 of the [catch] block, before [spawn]. *)
Example unconvertible_field_run :
  trace (sample_handle stub_env
           [("url", JString "u");
            ("startTime", JObject [("toString", JNull)]);
            ("endTime", JString "5")] ∅)
    = [Console LLog "Attempting to download and clip video from u";
       Console LLog ("Output path: " +:+ sample_output);
       Console LError "Error during video processing:";
       ResJson 500 [("error", "Cannot convert object to primitive value");
                    ("details", "No additional details.");
                    ("fullError", "{}")]].
Proof. vm_compute. reflexivity. Qed.

(** A child that never ends: no response, nothing deleted. *)
Example hung_child_run :
  responses (trace (sample_handle hung_env sample_body ∅)) = []
  /\ unlinked (trace (sample_handle hung_env sample_body ∅)) = []
  /\ spawn_count (trace (sample_handle hung_env sample_body ∅)) = 1%nat.
Proof. vm_compute. auto. Qed.

(** The spec's end-to-end example: the clip is sent, then deleted. *)
Example sample_run_trace :
  responses (trace (sample_handle stub_env sample_body ∅))
    = [ResDownload sample_output "clip.mp4" None]
  /\ unlinked (trace (sample_handle stub_env sample_body ∅)) = [sample_output]
  /\ disk (sample_handle stub_env sample_body ∅) = ∅.
Proof. vm_compute. auto. Qed.

Lemma missing_field_rejected_witness :
  responses (trace (sample_handle silent_env
                      [("url", JString "https://example.com/video");
                       ("startTime", JString "00:00:10")] ∅))
    = [ResJson 400 [("error", missing_fields_message)]]
  /\ spawn_count (trace (sample_handle silent_env
                      [("url", JString "https://example.com/video");
                       ("startTime", JString "00:00:10")] ∅)) = 0%nat.
Proof.
  apply missing_field_rejected. right. right. reflexivity.
Defined.

Lemma falsy_time_rejected_witness :
  responses (trace (sample_handle silent_env
                      [("url", JString "https://example.com/video");
                       ("startTime", JNumber 0);
                       ("endTime", JString "00:00:20")] ∅))
    = [ResJson 400 [("error", missing_fields_message)]]
  /\ spawn_count (trace (sample_handle silent_env
                      [("url", JString "https://example.com/video");
                       ("startTime", JNumber 0);
                       ("endTime", JString "00:00:20")] ∅)) = 0%nat.
Proof.
  apply (falsy_time_rejected _ _ _ _ _ _ _ (JNumber 0)).
  - left. reflexivity.
  - left. reflexivity.
Defined.

Lemma exit_zero_output_checked_witness :
  responses (trace (sample_handle silent_env sample_body ∅))
    = [ResJson 500
         [("error", no_output_message "");
          ("details", "No additional details.");
          ("fullError", sample_stringify (new_Error (no_output_message "")))]].
Proof.
  refine (proj1 (proj2 (exit_zero_output_checked sample_number_to_string
            sample_stringify sample_uploads sample_cookies silent_env
            sample_body ∅ [] _ _) _)).
  - reflexivity.
  - reflexivity.
  - left. reflexivity.
Defined.

Lemma nonzero_exit_classified_witness :
  responses (trace (sample_handle refused_env sample_body ∅))
    = [ResJson 500
         [("error",
           "YouTube bot detection triggered. The cookies file may be expired or invalid.");
          ("details", "No additional details.");
          ("fullError", "{}")]]
  /\ responses (trace (sample_handle failed_env sample_body ∅))
      = [ResJson 500
           [("error",
             "yt-dlp failed with code 1. Stderr: ERROR: unable to download video data: HTTP Error 403: Forbidden");
            ("details", "No additional details.");
            ("fullError", "{}")]].
Proof.
  split.
  - destruct (nonzero_exit_classified sample_number_to_string sample_stringify
                sample_uploads sample_cookies refused_env sample_body ∅
                refused_events (Some 1%Z))
      as (msg & Hresp & _ & Hthen & _).
    + reflexivity.
    + reflexivity.
    + discriminate.
    + unfold sample_handle. rewrite Hresp, Hthen; [reflexivity|].
      left. by exists "ERROR: [youtube] abc: ", ".".
  - destruct (nonzero_exit_classified sample_number_to_string sample_stringify
                sample_uploads sample_cookies failed_env sample_body ∅
                failed_events (Some 1%Z))
      as (msg & Hresp & _ & _ & Helse & _).
    + reflexivity.
    + reflexivity.
    + discriminate.
    + unfold sample_handle. rewrite Hresp, Helse; [reflexivity|].
      intros Hflag.
      apply (flagged_includes (stderr_of failed_events)) in Hflag.
      vm_compute in Hflag. discriminate.
Defined.


(** C5, the claim as stated fails: with no cookies file on disk, a request
    whose url is the text [--cookies] has the credential flag in the
    argument list [spawn] gets. *)
Lemma flag_in_arguments_without_cookie_file :
  valid_request sample_number_to_string flag_url_body = true
  /\ (∅ : Disk) !! sample_cookies = None
  /\ exists args,
       spawns (trace (sample_handle stub_env flag_url_body ∅))
         = [Spawn "yt-dlp" args]
       /\ JString "--cookies" ∈ args.
Proof.
  split; [reflexivity|]. split; [reflexivity|].
  eexists. split; [vm_compute; reflexivity|].
  apply elem_of_cons. by left.
Qed.

Lemma cookies_attached_when_readable_witness :
  exists args,
    spawns (trace (sample_handle stub_env sample_body
                     {[ sample_cookies := mkFile 3 "abc" None ]}))
      = [Spawn "yt-dlp" args]
    /\ args
       = base_args sample_uploads stub_env (JString "https://example.com/video")
           "*00:00:10-00:00:20"
         ++ [JString "--cookies"; JString sample_cookies]
    /\ Console LWarn "Warning: Cookies file seems too small and may be invalid"
         ∈ trace (sample_handle stub_env sample_body
                    {[ sample_cookies := mkFile 3 "abc" None ]}).
Proof.
  destruct (cookies_attached_when_readable sample_number_to_string
              sample_stringify sample_uploads sample_cookies stub_env
              sample_body {[ sample_cookies := mkFile 3 "abc" None ]})
    as (args & Hs & Hread & _).
  - reflexivity.
  - destruct (Hread (mkFile 3 "abc" None)) as [Hargs Hwarn].
    + reflexivity.
    + reflexivity.
    + exists args. split; [exact Hs|]. split; [exact Hargs|].
      apply Hwarn. simpl. lia.
Defined.

(** C6, the claim as stated fails: when deleting the output file fails, the
    [.part] file that is there is never tried. *)
Lemma part_file_skipped_when_unlink_fails :
  responses (trace (sample_handle locked_env sample_body ∅))
    = [ResDownload sample_output "clip.mp4" None]
  /\ disk_after leftover_events ∅ !! sample_part = Some sample_clip
  /\ unlinked (trace (sample_handle locked_env sample_body ∅)) = [sample_output]
  /\ sample_part ∉ unlinked (trace (sample_handle locked_env sample_body ∅)).
Proof.
  assert (Hunl : unlinked (trace (sample_handle locked_env sample_body ∅))
                 = [sample_output]) by (vm_compute; reflexivity).
  split; [vm_compute; reflexivity|]. split; [vm_compute; reflexivity|].
  split; [exact Hunl|]. rewrite Hunl.
  intros Hin. apply list_elem_of_singleton in Hin. discriminate.
Qed.

Lemma cleanup_after_send_witness :
  responses (trace (sample_handle stub_env sample_body ∅))
    = [ResDownload (outputPath sample_uploads stub_env) "clip.mp4"
         (delivery sample_uploads stub_env
            (disk_after [WritesFile sample_output sample_clip] ∅))]
  /\ outputPath sample_uploads stub_env
       ∈ unlinked (trace (sample_handle stub_env sample_body ∅)).
Proof.
  destruct (cleanup_after_send sample_number_to_string sample_stringify
              sample_uploads sample_cookies stub_env sample_body ∅
              [WritesFile sample_output sample_clip])
    as (Hresp & _ & Hout & _).
  - reflexivity.
  - reflexivity.
  - reflexivity.
  - split; [exact Hresp | exact Hout].
Defined.

(** C7, the claim as stated fails: when the send breaks, the client gets
    neither a complete file nor an error response. *)
Lemma broken_send_gives_neither :
  responses (trace (sample_handle broken_send_env sample_body ∅))
    = [ResDownload sample_output "clip.mp4" (Some epipe)]
  /\ ~ file_streamed (trace (sample_handle broken_send_env sample_body ∅))
  /\ ~ error_returned (trace (sample_handle broken_send_env sample_body ∅)).
Proof.
  assert (Hresp : responses (trace (sample_handle broken_send_env sample_body ∅))
                  = [ResDownload sample_output "clip.mp4" (Some epipe)])
    by (vm_compute; reflexivity).
  split; [exact Hresp|]. split.
  - intros (p & n & Hin).
    apply response_in_responses in Hin; [|reflexivity].
    rewrite Hresp in Hin. apply list_elem_of_singleton in Hin. discriminate.
  - intros (st & json & Hin).
    apply response_in_responses in Hin; [|reflexivity].
    rewrite Hresp in Hin. apply list_elem_of_singleton in Hin. discriminate.
Qed.

Lemma cookie_verdict_without_cookie_file_witness :
  (∅ : Disk) !! sample_cookies = None
  /\ responses (trace (sample_handle refused_env sample_body ∅))
      = [ResJson 500
           [("error",
             "YouTube bot detection triggered. The cookies file may be expired or invalid.");
            ("details", "No additional details.");
            ("fullError", "{}")]].
Proof.
  split; [reflexivity|].
  refine (proj2 (cookie_verdict_without_cookie_file sample_number_to_string
            sample_stringify sample_uploads sample_cookies refused_env
            sample_body ∅ refused_events (Some 1%Z) _ _ _ _ _)).
  - reflexivity.
  - reflexivity.
  - reflexivity.
  - discriminate.
  - right. by exists "ERROR: [youtube] abc: ", ".".
Defined.

Lemma no_cleanup_on_error_witness :
  unlinked (trace (sample_handle silent_env sample_body
                     {[ sample_part := sample_clip ]})) = []
  /\ disk (sample_handle silent_env sample_body {[ sample_part := sample_clip ]})
       !! sample_part = Some sample_clip.
Proof.
  destruct (no_cleanup_on_error sample_number_to_string sample_stringify
              sample_uploads sample_cookies silent_env sample_body
              {[ sample_part := sample_clip ]})
    as (Hunl & _ & Hkeep).
  - exists 500%Z. eexists. vm_compute. do 6 right. left.
  - split; [exact Hunl|]. apply Hkeep. reflexivity.
Defined.

(** * Further properties of the handler *)

Section Further.
Variable number_to_string : float -> string.
Variable stringify_error : Thrown -> string.
Variable uploadsDir : string.
Variable cookiesFilePath : string.
Variable env : Env.

Local Abbreviation handle :=
  (handle_clip number_to_string stringify_error uploadsDir cookiesFilePath env).
Local Abbreviation out := (outputPath uploadsDir env).
Local Abbreviation part := (partFilePath uploadsDir env).
Local Abbreviation valid := (valid_request number_to_string).
Local Abbreviation spawn_args' :=
  (spawn_args number_to_string uploadsDir cookiesFilePath env).
Local Abbreviation send_disk' :=
  (send_disk number_to_string uploadsDir cookiesFilePath env).
Local Abbreviation left_by_child :=
  (disk_left_by_child number_to_string uploadsDir cookiesFilePath env).

(** Splits on the way the request went and rewrites the summaries with the
    facts of that way. *)
Ltac on_each_run body d :=
  let Hr := fresh "Hr" in
  let w := fresh "w" in
  let Hw := fresh "Hw" in
  pose proof (handle_runs number_to_string stringify_error uploadsDir
                cookiesFilePath env body d) as Hr;
  remember (handle_clip _ _ _ _ _ body d) as w eqn:Hw; clear Hw;
  unfold expected_responses, caught_error, send_disk, disk_left_by_child;
  destruct Hr;
  repeat match goal with
         | H : valid_request _ _ = true |- _ =>
             pose proof (valid_present _ _ H); rewrite ?H; revert H
         | H : fields_present _ = false |- _ =>
             rewrite ?(not_present_not_valid _ _ H), ?H; revert H
         | H : fields_present _ = true |- _ => rewrite ?H; revert H
         | H : valid_request _ _ = false |- _ => rewrite ?H; revert H
         | H : yt_dlp _ _ = _ |- _ => rewrite ?H; revert H
         | H : output_ready _ _ _ = _ |- _ => rewrite ?H; revert H
         | H : ?c <> Some 0%Z |- _ =>
             rewrite ?(bool_decide_false (c = Some 0%Z)) by exact H; revert H
         end;
  intros; cbn [negb andb trace disk].

Ltac project_run :=
  cbn [trace disk];
  rewrite ?(bool_decide_true (Some 0%Z = Some 0%Z)) by done;
  cbn [negb andb];
  repeat first
    [ rewrite responses_app | rewrite unlinked_app | rewrite spawns_app
    | rewrite responses_send | rewrite unlinked_send | rewrite spawns_send
    | rewrite (responses_console _ (prelude_console _ _ _ _ _ _))
    | rewrite (unlinked_console _ (prelude_console _ _ _ _ _ _))
    | rewrite (spawns_console _ (prelude_console _ _ _ _ _ _))
    | rewrite (responses_console _ (listen_lines_console _))
    | rewrite (unlinked_console _ (listen_lines_console _))
    | rewrite (spawns_console _ (listen_lines_console _))
    | match goal with
      | H : Forall is_console ?l |- _ =>
          first [ rewrite (responses_console l H)
                | rewrite (unlinked_console l H)
                | rewrite (spawns_console l H) ]
      end
    | progress cbn [responses spawns unlinked List.filter is_response
                    is_spawn app failure_effects] ].

(** The responses of every request are the ones computed from its inputs. *)
Lemma responses_closed_form body d :
  responses (trace (handle body d))
    = expected_responses number_to_string stringify_error uploadsDir
        cookiesFilePath env body d.
Proof. on_each_run body d; project_run; reflexivity. Qed.

(** A request that gets to the send step sends, then cleans up. *)
Lemma unlinked_closed_form body d :
  unlinked (trace (handle body d))
    = match send_disk' body d with
      | Some d1 => unlinked (cleanup_result uploadsDir env d1).1
      | None => []
      end.
Proof. on_each_run body d; project_run; reflexivity. Qed.

Lemma disk_closed_form body d :
  disk (handle body d)
    = match send_disk' body d with
      | Some d1 => (cleanup_result uploadsDir env d1).2
      | None => left_by_child body d
      end.
Proof. on_each_run body d; project_run; reflexivity. Qed.

Lemma spawns_closed_form body d :
  spawns (trace (handle body d))
    = if valid body then [Spawn "yt-dlp" (spawn_args' body d)] else [].
Proof. on_each_run body d; project_run; reflexivity. Qed.

Lemma send_disk_left body d d1 :
  send_disk' body d = Some d1 ->
  left_by_child body d = d1 /\ output_ready uploadsDir env d1 = true.
Proof.
  unfold send_disk, disk_left_by_child. destruct (valid body); [|done].
  destruct (yt_dlp env (spawn_args' body d)) as [t|events [code|err|]]; try done.
  destruct (bool_decide (code = Some 0%Z)); [|done].
  destruct (output_ready uploadsDir env (disk_after events d)) eqn:Hr; [|done].
  by intros [= <-].
Qed.

Lemma spawn_in_spawns (e : Effect) (tr : list Effect) :
  e ∈ tr -> is_spawn e = true -> e ∈ spawns tr.
Proof.
  intros Hin He. unfold spawns.
  apply list_elem_of_In, List.filter_In. split; [by apply list_elem_of_In | done].
Qed.

Lemma unlink_in_unlinked (p : string) (tr : list Effect) :
  Unlink p ∈ tr <-> p ∈ unlinked tr.
Proof.
  induction tr as [|e tr IH]; [by rewrite !elem_of_nil|].
  destruct e; cbn [unlinked]; rewrite ?elem_of_cons, <- IH;
    try (split; [intros [?|?]; [discriminate | done] | by right]).
  split; (intros [H|H]; [left; congruence | by right]).
Qed.

(** X1. [spawn] is called once when the three fields are there and can be
    written into the log line and the section string, and not at all
    otherwise; the command is always [yt-dlp], and there is no second
    call. *)
Theorem spawn_exactly_when_valid (body : list (string * JsValue)) (d : Disk) :
  spawn_count (trace (handle body d)) = (if valid body then 1 else 0)%nat
  /\ (forall command args,
        Spawn command args ∈ trace (handle body d) -> command = "yt-dlp").
Proof.
  unfold spawn_count. split.
  - rewrite spawns_closed_form. by destruct (valid body).
  - intros command args Hin.
    apply spawn_in_spawns in Hin; [|reflexivity].
    rewrite spawns_closed_form in Hin. destruct (valid body).
    + apply list_elem_of_singleton in Hin. congruence.
    + by apply elem_of_nil in Hin.
Qed.

(** X2. A JSON response is either the 400 with the single field [error],
    sent only when the presence check fails, or a 500 with the fields
    [error], [details], [fullError], in this order, sent only when the
    check passed. *)
Theorem json_response_shapes (body : list (string * JsValue)) (d : Disk)
    (status : Z) (json : JsonBody) :
  ResJson status json ∈ trace (handle body d) ->
  (status = 400%Z /\ json = [("error", missing_fields_message)]
   /\ fields_present body = false)
  \/ (status = 500%Z /\ json.*1 = ["error"; "details"; "fullError"]
      /\ fields_present body = true).
Proof.
  intros Hin. apply response_in_responses in Hin; [|reflexivity].
  rewrite responses_closed_form in Hin. unfold expected_responses in Hin.
  destruct (fields_present body); cbn [negb] in Hin.
  - right.
    destruct (caught_error _ _ _ _ _ _) as [t|].
    + apply list_elem_of_singleton in Hin. injection Hin as -> ->. done.
    + destruct (send_disk _ _ _ _ _ _).
      * apply list_elem_of_singleton in Hin. discriminate.
      * by apply elem_of_nil in Hin.
  - left. apply list_elem_of_singleton in Hin. injection Hin as -> ->. done.
Qed.

(** X3. A file is sent only from the output path, under the name
    [clip.mp4], and only after the child closed with code 0 and left a
    file of size above zero at that path. *)
Theorem download_only_after_verified_exit (body : list (string * JsValue))
    (d : Disk) (path filename : string) (failure : option JsError) :
  ResDownload path filename failure ∈ trace (handle body d) ->
  path = out /\ filename = "clip.mp4"
  /\ exists events f,
       valid body = true
       /\ yt_dlp env (spawn_args' body d) = Child events (Closed (Some 0%Z))
       /\ disk_after events d !! out = Some f /\ (0 < size f)%Z
       /\ failure = delivery uploadsDir env (disk_after events d).
Proof.
  intros Hin. apply response_in_responses in Hin; [|reflexivity].
  rewrite responses_closed_form in Hin. unfold expected_responses in Hin.
  destruct (fields_present body); cbn [negb] in Hin;
    [|apply list_elem_of_singleton in Hin; discriminate].
  destruct (caught_error _ _ _ _ _ _) as [t|];
    [apply list_elem_of_singleton in Hin; discriminate|].
  unfold send_disk in Hin.
  destruct (valid body); [|by apply elem_of_nil in Hin].
  destruct (yt_dlp env (spawn_args' body d)) as [t|events [code|err|]] eqn:Hc;
    try by apply elem_of_nil in Hin.
  destruct (bool_decide (code = Some 0%Z)) eqn:Hcode;
    [|by apply elem_of_nil in Hin].
  apply bool_decide_eq_true in Hcode as ->.
  destruct (output_ready uploadsDir env (disk_after events d)) eqn:Hready;
    [|by apply elem_of_nil in Hin].
  cbn [andb] in Hin. apply list_elem_of_singleton in Hin.
  injection Hin as -> -> ->.
  apply output_ready_spec in Hready as (f & Hf & Hsize).
  split; [done|]. split; [done|]. by exists events, f.
Qed.

(** X4. When the child emits ['error'] (the program cannot be started),
    the one response is the 500 whose message is "Failed to start yt-dlp: "
    followed by the error's message, whatever the child printed before;
    nothing is sent as a file and nothing is deleted. *)
Theorem error_event_reported (body : list (string * JsValue)) (d : Disk)
    (events : list ChildEvent) (err : JsError) :
  valid body = true ->
  yt_dlp env (spawn_args' body d) = Child events (Errored err) ->
  let msg := "Failed to start yt-dlp: " +:+ message err in
  responses (trace (handle body d))
    = [ResJson 500 [("error", msg);
                    ("details", "No additional details.");
                    ("fullError", stringify_error (new_Error msg))]]
  /\ unlinked (trace (handle body d)) = []
  /\ disk (handle body d) = disk_after events d.
Proof.
  intros Hv Hc msg.
  rewrite responses_closed_form, unlinked_closed_form, disk_closed_form.
  unfold expected_responses, caught_error, send_disk, disk_left_by_child.
  by rewrite (valid_present _ _ Hv), Hv, Hc.
Qed.

(** X5. When [spawn] itself throws, the one response is the 500 built
    from the thrown value.  [error] is the message of a thrown [Error], or
    the thrown string itself.  [details] is the [details] property of the
    error if that is a string; else its [stderr] property if that is a
    string; else, and for a thrown string, "No additional details.".
    [fullError] is the serialisation of the thrown value.  The disk is
    left as it was and nothing is deleted. *)
Theorem thrown_spawn_reported (body : list (string * JsValue)) (d : Disk)
    (t : Thrown) :
  valid body = true ->
  yt_dlp env (spawn_args' body d) = SpawnThrows t ->
  exists error details,
    responses (trace (handle body d))
      = [ResJson 500 [("error", error);
                      ("details", details);
                      ("fullError", stringify_error t)]]
    /\ (forall s, t = ThrownString s ->
          error = s /\ details = "No additional details.")
    /\ (forall e, t = ThrownError e ->
          error = message e
          /\ (forall text,
                own_property (extra e) "details" = Some (JString text) ->
                details = text)
          /\ (forall text,
                (forall s, own_property (extra e) "details" <> Some (JString s)) ->
                own_property (extra e) "stderr" = Some (JString text) ->
                details = text)
          /\ ((forall s, own_property (extra e) "details" <> Some (JString s)) ->
              (forall s, own_property (extra e) "stderr" <> Some (JString s)) ->
              details = "No additional details."))
    /\ unlinked (trace (handle body d)) = []
    /\ disk (handle body d) = d.
Proof.
  intros Hv Hc. exists (thrown_text t), (error_details t).
  rewrite responses_closed_form, unlinked_closed_form, disk_closed_form.
  unfold expected_responses, caught_error, send_disk, disk_left_by_child.
  rewrite (valid_present _ _ Hv), Hv, Hc. cbn [negb].
  split; [done|]. split; [by intros s ->|]. split; [|done].
  intros e ->. split; [done|]. cbn [error_details]. split; [|split].
  - intros text Hd. by rewrite Hd.
  - intros text Hnot Hs. rewrite Hs.
    destruct (own_property (extra e) "details") as [[| | | |s| |]|]; try done.
    by destruct (Hnot s).
  - intros Hnot1 Hnot2.
    destruct (own_property (extra e) "details") as [[| | | |s| |]|];
      try (by destruct (Hnot1 s));
      destruct (own_property (extra e) "stderr") as [[| | | |s'| |]|];
      try done; by destruct (Hnot2 s').
Qed.

(** X6. Every error the handler makes itself carries no details: unless
    [spawn] throws, the [details] field of a 500 response is always
    "No additional details.". *)
Theorem details_default_unless_spawn_throws (body : list (string * JsValue))
    (d : Disk) (json : JsonBody) :
  (forall t, yt_dlp env (spawn_args' body d) <> SpawnThrows t) ->
  ResJson 500 json ∈ trace (handle body d) ->
  json !! 1%nat = Some ("details", "No additional details.").
Proof.
  intros Hspawn Hin. apply response_in_responses in Hin; [|reflexivity].
  rewrite responses_closed_form in Hin. unfold expected_responses in Hin.
  destruct (fields_present body); cbn [negb] in Hin;
    [|apply list_elem_of_singleton in Hin; discriminate].
  destruct (caught_error _ _ _ _ _ _) as [t|] eqn:Ht.
  - apply list_elem_of_singleton in Hin. injection Hin as ->.
    unfold caught_error in Ht.
    destruct (fields_present body); cbn [negb] in Ht; [|discriminate].
    destruct (valid body); cbn [negb] in Ht; [|by injection Ht as <-].
    destruct (yt_dlp env (spawn_args' body d)) as [t'|events [code|err|]] eqn:Hc.
    + by destruct (Hspawn t').
    + destruct (bool_decide (code = Some 0%Z));
        [destruct (output_ready _ _ _)|]; try discriminate;
        by injection Ht as <-.
    + by injection Ht as <-.
    + discriminate.
  - destruct (send_disk _ _ _ _ _ _).
    + apply list_elem_of_singleton in Hin. discriminate.
    + by apply elem_of_nil in Hin.
Qed.

(** X7. A request whose three fields pass the presence check but do not
    all convert to text (an object with its own [toString] property, alone
    or inside an array) ends in the 500 with the engine's TypeError
    message; [spawn] is not called and the disk is not touched. *)
Theorem unconvertible_field_reported (body : list (string * JsValue))
    (d : Disk) :
  fields_present body = true ->
  valid body = false ->
  responses (trace (handle body d))
    = [ResJson 500 [("error", "Cannot convert object to primitive value");
                    ("details", "No additional details.");
                    ("fullError", stringify_error cannot_convert)]]
  /\ spawn_count (trace (handle body d)) = 0%nat
  /\ disk (handle body d) = d.
Proof.
  intros Hp Hv. unfold spawn_count.
  rewrite responses_closed_form, spawns_closed_form, disk_closed_form.
  unfold expected_responses, caught_error, send_disk, disk_left_by_child.
  by rewrite Hp, Hv.
Qed.

Lemma no_response_call_iff_hangs (body : list (string * JsValue)) (d : Disk) :
  responses (trace (handle body d)) = []
  <-> child_hangs number_to_string uploadsDir cookiesFilePath env body d.
Proof.
  rewrite responses_closed_form.
  unfold expected_responses, caught_error, send_disk, child_hangs.
  destruct (fields_present body) eqn:Hp; cbn [negb].
  - destruct (valid body) eqn:Hv; cbn [negb].
    + destruct (yt_dlp env (spawn_args' body d)) as [t|events [code|err|]] eqn:Hc.
      * split; [done | by intros [_ [? ?]]].
      * destruct (bool_decide (code = Some 0%Z)); cbn [andb];
          [destruct (output_ready _ _ _)|];
          (split; [done | by intros [_ [? ?]]]).
      * split; [done | by intros [_ [? ?]]].
      * split; [intros _; split; [done | by exists events] | done].
    + split; [done | by intros [? _]].
  - rewrite (not_present_not_valid _ _ Hp). split; [done | by intros [? _]].
Qed.

Lemma responses_empty (tr : list Effect) :
  responses tr = []
  <-> (forall status json, ResJson status json ∉ tr)
      /\ (forall path filename failure, ResDownload path filename failure ∉ tr).
Proof.
  split.
  - intros Hnil. split.
    + intros status json Hin.
      apply response_in_responses in Hin; [|reflexivity].
      rewrite Hnil in Hin. by apply elem_of_nil in Hin.
    + intros path filename failure Hin.
      apply response_in_responses in Hin; [|reflexivity].
      rewrite Hnil in Hin. by apply elem_of_nil in Hin.
  - intros [Hjson Hfile]. induction tr as [|e tr IH]; [reflexivity|].
    assert (Hrest : responses tr = []).
    { apply IH.
      - intros status json Hin. apply (Hjson status json), elem_of_cons. by right.
      - intros path filename failure Hin.
        apply (Hfile path filename failure), elem_of_cons. by right. }
    destruct e as [lvl line|command args|st js|pa fn fl|pa];
      cbn [responses List.filter is_response]; try exact Hrest.
    + destruct (Hjson st js). apply elem_of_cons. by left.
    + destruct (Hfile pa fn fl). apply elem_of_cons. by left.
Qed.

(** X8. The handler calls neither [res.json] nor [res.download] exactly
    when the child process is started and never emits ['close'] or
    ['error']: there is no timeout, and on every other path one of the two
    calls is made.  (What reaches the client when a download call fails
    is not part of this statement.) *)
Theorem no_answer_call_iff_child_hangs (body : list (string * JsValue))
    (d : Disk) :
  ((forall status json, ResJson status json ∉ trace (handle body d))
   /\ (forall path filename failure,
         ResDownload path filename failure ∉ trace (handle body d)))
  <-> (valid body = true
       /\ exists events, yt_dlp env (spawn_args' body d) = Child events Hangs).
Proof.
  rewrite <- responses_empty, no_response_call_iff_hangs.
  reflexivity.
Qed.

(** ** Paths *)

Lemma append_cancel_r (a b c : string) : a +:+ c = b +:+ c -> a = b.
Proof.
  intros H.
  assert (Hlen : String.length a = String.length b).
  { apply (f_equal String.length) in H. rewrite !length_append in H. lia. }
  revert b H Hlen. induction a as [|x a IH]; intros [|y b] H Hlen.
  - reflexivity.
  - simpl in Hlen. discriminate.
  - simpl in Hlen. discriminate.
  - rewrite !append_cons in H. injection H as -> H.
    f_equal. apply IH; [exact H | simpl in Hlen; lia].
Qed.

Lemma last_char_append (a b : string) :
  b <> "" -> last_char (a +:+ b) = last_char b.
Proof.
  intros Hb. induction a as [|x a IH]; [reflexivity|].
  rewrite append_cons. cbn [last_char].
  destruct (a +:+ b) eqn:E; [|exact IH].
  destruct a; [by destruct Hb | discriminate].
Qed.

Lemma output_path_ends_in_4 (e : Env) :
  last_char (outputPath uploadsDir e) = Some "4"%char.
Proof.
  unfold outputPath, path_join.
  rewrite last_char_append by done.
  change ("/" +:+ ?x) with (String "/" x).
  change (String "/" ("clip-" +:+ ?x)) with ("/clip-" +:+ x).
  rewrite last_char_append; [|by destruct (show_Z (now e))].
  by rewrite last_char_append.
Qed.

Lemma part_path_ends_in_t (e : Env) :
  last_char (partFilePath uploadsDir e) = Some "t"%char.
Proof. unfold partFilePath. by rewrite last_char_append. Qed.

(** The output path determines the timestamp. *)
Lemma output_path_inj (env2 : Env) :
  outputPath uploadsDir env2 = out -> now env2 = now env.
Proof.
  unfold outputPath, path_join. intros H.
  do 3 (apply (inj (String.append _)) in H).
  by apply append_cancel_r, show_Z_inj in H.
Qed.

Lemma output_path_not_part (e1 e2 : Env) :
  outputPath uploadsDir e1 <> partFilePath uploadsDir e2.
Proof.
  intros H. apply (f_equal last_char) in H.
  rewrite output_path_ends_in_4, part_path_ends_in_t in H. discriminate.
Qed.

(** X9. Requests with different timestamps have different output paths
    and different [.part] paths, and the output path of one is never the
    [.part] path of the other. *)
Theorem output_paths_distinct (env2 : Env) :
  now env <> now env2 ->
  outputPath uploadsDir env2 <> out
  /\ outputPath uploadsDir env2 <> part
  /\ partFilePath uploadsDir env2 <> out
  /\ partFilePath uploadsDir env2 <> part.
Proof.
  intros Hnow.
  assert (Hout : outputPath uploadsDir env2 <> out).
  { intros H. apply output_path_inj in H. congruence. }
  split; [exact Hout|]. split; [|split].
  - apply output_path_not_part.
  - intros H. symmetry in H. by apply output_path_not_part in H.
  - unfold partFilePath. intros H. by apply append_cancel_r in H.
Qed.

(** ** Cleanup *)

Lemma part_differs : part <> out.
Proof. apply part_path_differs. Qed.

Lemma part_cleanup_unlinked (d1 : Disk) :
  unlinked (part_cleanup uploadsDir env d1).1 = []
  \/ unlinked (part_cleanup uploadsDir env d1).1 = [part].
Proof.
  unfold part_cleanup. destruct (d1 !! part); [|by left].
  destruct (unlink_error env part); by right.
Qed.

Lemma cleanup_unlinked_cases (d1 : Disk) :
  is_Some (d1 !! out) ->
  unlinked (cleanup_result uploadsDir env d1).1 = [out]
  \/ unlinked (cleanup_result uploadsDir env d1).1 = [out; part].
Proof.
  intros [f Hf]. unfold cleanup_result. rewrite Hf.
  destruct (unlink_error env out); [by left|].
  cbn [fst unlinked].
  destruct (part_cleanup_unlinked (delete out d1)) as [-> | ->]; auto.
Qed.

Lemma part_cleanup_frame (d1 : Disk) (p : string) :
  ((part_cleanup uploadsDir env d1).2 !! p = d1 !! p
   \/ (p = part /\ (part_cleanup uploadsDir env d1).2 !! p = None))
  /\ (unlink_error env part = None ->
      (part_cleanup uploadsDir env d1).2 !! part = None).
Proof.
  unfold part_cleanup. destruct (d1 !! part) as [g|] eqn:Hg.
  - destruct (unlink_error env part) as [e|]; cbn [snd].
    + split; [by left | done].
    + split; [|intros _; apply lookup_delete_eq].
      destruct (decide (p = part)) as [->|Hne].
      * right. split; [done | apply lookup_delete_eq].
      * left. by apply lookup_delete_ne.
  - cbn [snd]. split; [by left | done].
Qed.

(** What the cleanup does to the disk: it can only take away the output
    file and the [.part] file. *)
Lemma cleanup_frame (d1 : Disk) (p : string) :
  (cleanup_result uploadsDir env d1).2 !! p = d1 !! p
  \/ ((p = out \/ p = part) /\ (cleanup_result uploadsDir env d1).2 !! p = None).
Proof.
  unfold cleanup_result. destruct (d1 !! out) as [f|] eqn:Hf.
  - destruct (unlink_error env out) as [e|]; cbn [snd]; [by left|].
    destruct (part_cleanup_frame (delete out d1) p) as [[Hsame | [-> Hgone]] _].
    + rewrite Hsame. destruct (decide (p = out)) as [->|Hne].
      * right. split; [by left|]. apply lookup_delete_eq.
      * left. by apply lookup_delete_ne.
    + right. split; [by right | exact Hgone].
  - destruct (part_cleanup_frame d1 p) as [[Hsame | [-> Hgone]] _].
    + by left.
    + right. split; [by right | exact Hgone].
Qed.

Lemma cleanup_removes (d1 : Disk) :
  is_Some (d1 !! out) ->
  unlink_error env out = None ->
  (cleanup_result uploadsDir env d1).2 !! out = None
  /\ (unlink_error env part = None ->
      (cleanup_result uploadsDir env d1).2 !! part = None).
Proof.
  intros [f Hf] Hok. unfold cleanup_result. rewrite Hf, Hok. cbn [snd].
  destruct (part_cleanup_frame (delete out d1) out) as [[Hsame | [Heq _]] Hpart].
  - split; [|exact Hpart]. rewrite Hsame. apply lookup_delete_eq.
  - symmetry in Heq. by destruct (part_differs).
Qed.

(** X10. Whatever the request, the handler deletes nothing but its own
    output file and its [.part] file, the output file first, each at most
    once. *)
Theorem deletes_only_own_files (body : list (string * JsValue)) (d : Disk) :
  unlinked (trace (handle body d)) = []
  \/ unlinked (trace (handle body d)) = [out]
  \/ unlinked (trace (handle body d)) = [out; part].
Proof.
  rewrite unlinked_closed_form.
  destruct (send_disk' body d) as [d1|] eqn:Hs; [|by left].
  destruct (send_disk_left _ _ _ Hs) as [_ Hready].
  apply output_ready_spec in Hready as (f & Hf & _).
  right. apply cleanup_unlinked_cases. by exists f.
Qed.

Lemma sent_trace_shape_match body d :
  match send_disk' body d with
  | Some d1 =>
      exists before,
        trace (handle body d) = before ++ send_effects uploadsDir env d1
        /\ unlinked before = []
  | None => True
  end.
Proof.
  on_each_run body d;
    rewrite ?(bool_decide_true (Some 0%Z = Some 0%Z)) by done;
    cbn [andb]; try exact I.
  exists (prelude number_to_string uploadsDir cookiesFilePath env body d
            ++ Spawn "yt-dlp" (spawn_args' body d) :: listen_lines events
            ++ [Console LLog ("yt-dlp download and clip successful: " +:+ out);
                Console LLog ("Processing complete. Clip available at: " +:+ out)]).
  split.
  - rewrite <- !app_assoc. cbn [app]. rewrite <- !app_assoc. reflexivity.
  - project_run. reflexivity.
Qed.

Lemma sent_trace_shape body d d1 :
  send_disk' body d = Some d1 ->
  exists before,
    trace (handle body d) = before ++ send_effects uploadsDir env d1
    /\ unlinked before = [].
Proof.
  intros Hs. pose proof (sent_trace_shape_match body d) as H.
  by rewrite Hs in H.
Qed.

(** X11. Nothing is deleted before the file has been handed to the
    response: every deletion in the trace comes after the download. *)
Theorem nothing_deleted_before_send (body : list (string * JsValue)) (d : Disk)
    (before after : list Effect) (p : string) :
  trace (handle body d) = before ++ Unlink p :: after ->
  exists failure, ResDownload out "clip.mp4" failure ∈ before.
Proof.
  intros Htr.
  assert (Hin : p ∈ unlinked (trace (handle body d))).
  { apply unlink_in_unlinked. rewrite Htr. apply elem_of_app. right.
    apply elem_of_cons. by left. }
  rewrite unlinked_closed_form in Hin.
  destruct (send_disk' body d) as [d1|] eqn:Hs; [|by apply elem_of_nil in Hin].
  destruct (sent_trace_shape _ _ _ Hs) as (pre & Hshape & Hquiet).
  rewrite Hshape in Htr. unfold send_effects in Htr.
  exists (delivery uploadsDir env d1).
  apply app_eq_inv in Htr as [(k & Hpre & Hk) | (k & Hbefore & Hk)].
  - destruct k as [|x k]; [cbn [app] in Hk; discriminate|]. exfalso.
    cbn [app] in Hk. injection Hk as <- _.
    rewrite Hpre, unlinked_app in Hquiet.
    apply app_eq_nil in Hquiet as [_ Hquiet]. discriminate.
  - destruct k as [|x k]; [cbn [app] in Hk; discriminate|].
    cbn [app] in Hk. injection Hk as <- _.
    rewrite Hbefore. apply elem_of_app. right. apply elem_of_cons. by left.
Qed.

(** X12. After a request that gets to the send step, if deleting the
    output file does not fail, the output file is gone from the disk, and
    so is the [.part] file if deleting it does not fail either; every
    other file is as the child left it. *)
Theorem success_removes_output (body : list (string * JsValue)) (d : Disk)
    (events : list ChildEvent) :
  valid body = true ->
  yt_dlp env (spawn_args' body d) = Child events (Closed (Some 0%Z)) ->
  output_ready uploadsDir env (disk_after events d) = true ->
  unlink_error env out = None ->
  disk (handle body d) !! out = None
  /\ (unlink_error env part = None -> disk (handle body d) !! part = None)
  /\ (forall p, p <> out -> p <> part ->
        disk (handle body d) !! p = disk_after events d !! p).
Proof.
  intros Hv Hc Hready Hok. rewrite disk_closed_form.
  unfold send_disk. rewrite Hv, Hc, Hready, bool_decide_true by done.
  cbn [andb].
  apply output_ready_spec in Hready as (f & Hf & _).
  destruct (cleanup_removes (disk_after events d)) as [Hout Hpart];
    [by exists f | exact Hok |].
  split; [exact Hout|]. split; [exact Hpart|].
  intros p Hne1 Hne2.
  destruct (cleanup_frame (disk_after events d) p) as [H | [[?|?] _]]; done.
Qed.

(** X13. The handler never creates or changes a file: on every path, a
    file on the final disk is a file the child left (or one that was there
    before), and apart from the output file and its [.part] file the disk
    is exactly as the child left it. *)
Theorem handler_only_removes (body : list (string * JsValue)) (d : Disk)
    (p : string) :
  (forall f, disk (handle body d) !! p = Some f -> left_by_child body d !! p = Some f)
  /\ (p <> out -> p <> part ->
      disk (handle body d) !! p = left_by_child body d !! p).
Proof.
  rewrite disk_closed_form.
  destruct (send_disk' body d) as [d1|] eqn:Hs; [|done].
  destruct (send_disk_left _ _ _ Hs) as [-> _].
  destruct (cleanup_frame d1 p) as [-> | [Hp Hnone]].
  - done.
  - rewrite Hnone. split; [done|]. intros ? ?. by destruct Hp.
Qed.

(** X14. A request leaves the output file of a request with another
    timestamp alone: it does not try to delete it, and it is on the disk
    afterwards exactly if the child left it there. *)
Theorem other_request_untouched (body : list (string * JsValue)) (d : Disk)
    (env2 : Env) :
  now env <> now env2 ->
  (outputPath uploadsDir env2 ∉ unlinked (trace (handle body d)))
  /\ disk (handle body d) !! outputPath uploadsDir env2
      = left_by_child body d !! outputPath uploadsDir env2.
Proof.
  intros Hnow.
  assert (Hne1 : outputPath uploadsDir env2 <> out).
  { intros H. apply output_path_inj in H. congruence. }
  pose proof (output_path_not_part env2 env) as Hne2.
  split.
  - rewrite unlinked_closed_form.
    destruct (send_disk' body d) as [d1|] eqn:Hs; [|apply not_elem_of_nil].
    destruct (send_disk_left _ _ _ Hs) as [_ Hready].
    apply output_ready_spec in Hready as (f & Hf & _).
    destruct (cleanup_unlinked_cases d1) as [-> | ->]; [by exists f | ..];
      rewrite ?not_elem_of_cons; repeat split; auto using not_elem_of_nil.
  - rewrite disk_closed_form.
    destruct (send_disk' body d) as [d1|] eqn:Hs; [|done].
    destruct (send_disk_left _ _ _ Hs) as [-> _].
    destruct (cleanup_frame d1 (outputPath uploadsDir env2))
      as [-> | [[?|?] _]]; done.
Qed.

(** ** The listeners *)

Lemma concat_cons (c : string) (l : list string) :
  String.concat "" (c :: l) = c +:+ String.concat "" l.
Proof.
  destruct l; [|reflexivity]. cbn [String.concat]. symmetry.
  apply append_empty_r.
Qed.

Lemma stderr_of_concat (events : list ChildEvent) :
  stderr_of events
    = String.concat ""
        (omap (fun ev => match ev with StderrData c => Some c | _ => None end)
              events).
Proof.
  induction events as [|ev rest IH]; [reflexivity|].
  destruct ev; try exact IH.
  cbn [stderr_of]. rewrite IH. symmetry. apply concat_cons.
Qed.

Lemma stdout_of_concat (events : list ChildEvent) :
  stdout_of events
    = String.concat ""
        (omap (fun ev => match ev with StdoutData c => Some c | _ => None end)
              events).
Proof.
  induction events as [|ev rest IH]; [reflexivity|].
  destruct ev; try exact IH.
  cbn [stdout_of]. rewrite IH. symmetry. apply concat_cons.
Qed.

Lemma listen_lines_omap (events : list ChildEvent) :
  listen_lines events
    = omap (fun ev =>
              match ev with
              | StderrData c => Some (Console LError ("yt-dlp stderr: " +:+ c))
              | StdoutData c => Some (Console LLog ("yt-dlp stdout: " +:+ c))
              | _ => None
              end) events.
Proof.
  induction events as [|ev rest IH]; [reflexivity|].
  destruct ev; cbn [listen_lines omap]; by rewrite IH.
Qed.

(** X15. The two ['data'] listeners never throw; when the child ends,
    [processStderr] is the texts of the stderr chunks (each decoded on its
    own) joined in arrival order, with nothing of stdout in it, and
    [processStdout] likewise for stdout; each chunk has been printed once,
    in arrival order, stderr chunks by [console.error] after
    "yt-dlp stderr: " and stdout chunks by [console.log] after
    "yt-dlp stdout: ". *)
Theorem listeners_accumulate (events : list ChildEvent) (w : World) :
  (listen events "" "" w).1
    = Normal
        (String.concat ""
           (omap (fun ev => match ev with StderrData c => Some c | _ => None end)
                 events),
         String.concat ""
           (omap (fun ev => match ev with StdoutData c => Some c | _ => None end)
                 events))
  /\ trace (listen events "" "" w).2
      = trace w
        ++ omap (fun ev =>
                   match ev with
                   | StderrData c => Some (Console LError ("yt-dlp stderr: " +:+ c))
                   | StdoutData c => Some (Console LLog ("yt-dlp stdout: " +:+ c))
                   | _ => None
                   end) events.
Proof.
  rewrite listen_run. cbn [fst snd trace].
  by rewrite <- stderr_of_concat, <- stdout_of_concat, <- listen_lines_omap.
Qed.

(** ** Requests of the declared type *)



(** X19. When deleting the output file fails after the send, the cleanup
    stops there: the output file was the only deletion tried, and the disk
    is exactly as the child left it, [.part] file included. *)
Theorem failed_unlink_leaves_everything (body : list (string * JsValue))
    (d : Disk) (events : list ChildEvent) (err : JsError) :
  valid body = true ->
  yt_dlp env (spawn_args' body d) = Child events (Closed (Some 0%Z)) ->
  output_ready uploadsDir env (disk_after events d) = true ->
  unlink_error env out = Some err ->
  unlinked (trace (handle body d)) = [out]
  /\ disk (handle body d) = disk_after events d
  /\ responses (trace (handle body d))
      = [ResDownload out "clip.mp4"
           (delivery uploadsDir env (disk_after events d))].
Proof.
  intros Hv Hc Hready Hfail.
  rewrite unlinked_closed_form, disk_closed_form, responses_closed_form.
  unfold expected_responses, caught_error, send_disk.
  rewrite (valid_present _ _ Hv), Hv, Hc, Hready, bool_decide_true by done.
  cbn [negb andb].
  apply output_ready_spec in Hready as (f & Hf & _).
  unfold cleanup_result. by rewrite Hf, Hfail.
Qed.
End Further.

(** ** Two environments *)

(** X16. Whether the send succeeds or breaks changes nothing else: the
    call of [spawn], the deletions and the final disk are the same. *)
Theorem cleanup_independent_of_transport (number_to_string : float -> string)
    (stringify_error : Thrown -> string) (uploadsDir cookiesFilePath : string)
    (env : Env) (t : option JsError) (body : list (string * JsValue))
    (d : Disk) :
  let w := handle_clip number_to_string stringify_error uploadsDir
             cookiesFilePath env body d in
  let w' := handle_clip number_to_string stringify_error uploadsDir
              cookiesFilePath (set_transport_error t env) body d in
  spawns (trace w') = spawns (trace w)
  /\ unlinked (trace w') = unlinked (trace w)
  /\ disk w' = disk w.
Proof.
  intros w w'. subst w w'.
  rewrite !spawns_closed_form, !unlinked_closed_form, !disk_closed_form.
  repeat split; reflexivity.
Qed.

Lemma stderr_of_muted (events : list ChildEvent) :
  stderr_of (List.filter
               (fun ev => match ev with StdoutData _ => false | _ => true end)
               events)
    = stderr_of events.
Proof.
  induction events as [|ev rest IH]; [reflexivity|].
  destruct ev; cbn [List.filter stderr_of]; by rewrite ?IH.
Qed.

Lemma disk_after_muted (events : list ChildEvent) (d : Disk) :
  disk_after (List.filter
                (fun ev => match ev with StdoutData _ => false | _ => true end)
                events) d
    = disk_after events d.
Proof.
  unfold disk_after. revert d.
  induction events as [|ev rest IH]; intros d; [reflexivity|].
  destruct ev; cbn [List.filter foldl apply_child_event]; apply IH.
Qed.

Section Muted.
Variable number_to_string : float -> string.
Variable stringify_error : Thrown -> string.
Variable uploadsDir : string.
Variable cookiesFilePath : string.
Variable env : Env.

Lemma muted_child body d :
  yt_dlp (mute_stdout env)
    (spawn_args number_to_string uploadsDir cookiesFilePath (mute_stdout env) body d)
    = mute_stdout_child
        (yt_dlp env (spawn_args number_to_string uploadsDir cookiesFilePath env body d)).
Proof. reflexivity. Qed.

Lemma send_disk_muted body d :
  send_disk number_to_string uploadsDir cookiesFilePath (mute_stdout env) body d
    = send_disk number_to_string uploadsDir cookiesFilePath env body d.
Proof.
  unfold send_disk. rewrite muted_child.
  destruct (valid_request number_to_string body); [|reflexivity].
  destruct (yt_dlp env _) as [t|events [code|err|]]; try reflexivity.
  cbn [mute_stdout_child]. rewrite disk_after_muted. reflexivity.
Qed.

Lemma caught_error_muted body d :
  caught_error number_to_string uploadsDir cookiesFilePath (mute_stdout env) body d
    = caught_error number_to_string uploadsDir cookiesFilePath env body d.
Proof.
  unfold caught_error. rewrite muted_child.
  destruct (fields_present body); [|reflexivity].
  destruct (valid_request number_to_string body); [|reflexivity].
  destruct (yt_dlp env _) as [t|events [code|err|]]; try reflexivity.
  cbn [mute_stdout_child negb]. rewrite disk_after_muted, stderr_of_muted.
  reflexivity.
Qed.

Lemma left_by_child_muted body d :
  disk_left_by_child number_to_string uploadsDir cookiesFilePath (mute_stdout env) body d
    = disk_left_by_child number_to_string uploadsDir cookiesFilePath env body d.
Proof.
  unfold disk_left_by_child. rewrite muted_child.
  destruct (valid_request number_to_string body); [|reflexivity].
  destruct (yt_dlp env _) as [t|events ending]; [reflexivity|].
  cbn [mute_stdout_child]. apply disk_after_muted.
Qed.

(** X17. What the child prints on stdout is never used: with the stdout
    chunks taken away, and everything else the same, the handler makes the
    same answer (status, [error], [details], or the same download), the
    same deletions, and leaves the same disk.  [fullError] is left out of
    the comparison. *)
Theorem stdout_never_used (body : list (string * JsValue)) (d : Disk) :
  let w := handle_clip number_to_string stringify_error uploadsDir
             cookiesFilePath env body d in
  let w' := handle_clip number_to_string stringify_error uploadsDir
              cookiesFilePath (mute_stdout env) body d in
  map without_full_error (responses (trace w'))
    = map without_full_error (responses (trace w))
  /\ unlinked (trace w') = unlinked (trace w)
  /\ disk w' = disk w.
Proof.
  intros w w'. subst w w'.
  rewrite !responses_closed_form, !unlinked_closed_form, !disk_closed_form.
  unfold expected_responses.
  rewrite caught_error_muted, send_disk_muted, left_by_child_muted.
  repeat split; reflexivity.
Qed.
End Muted.

(** ** Concrete requests for the further properties *)

Lemma json_response_shapes_witness : fields_present sample_body = true.
Proof.
  destruct (json_response_shapes sample_number_to_string sample_stringify
              sample_uploads sample_cookies refused_env sample_body ∅ 500
              [("error", bot_detection_message);
               ("details", "No additional details.");
               ("fullError", "{}")])
    as [(Hst & _) | (_ & _ & Hp)].
  - apply list_elem_of_In. vm_compute.
    repeat first [ left; reflexivity | right ].
  - discriminate.
  - exact Hp.
Defined.

Lemma download_only_after_verified_exit_witness :
  sample_output = outputPath sample_uploads stub_env.
Proof.
  destruct (download_only_after_verified_exit sample_number_to_string
              sample_stringify sample_uploads sample_cookies stub_env
              sample_body ∅ sample_output "clip.mp4" None)
    as (Hpath & _).
  - apply list_elem_of_In. vm_compute.
    repeat first [ left; reflexivity | right ].
  - exact Hpath.
Defined.

Lemma error_event_reported_witness :
  responses (trace (sample_handle missing_tool_env sample_body ∅))
    = [ResJson 500
         [("error", "Failed to start yt-dlp: spawn yt-dlp ENOENT");
          ("details", "No additional details.");
          ("fullError",
           sample_stringify
             (new_Error "Failed to start yt-dlp: spawn yt-dlp ENOENT"))]].
Proof.
  refine (proj1 (error_event_reported sample_number_to_string sample_stringify
            sample_uploads sample_cookies missing_tool_env sample_body ∅ []
            enoent_spawn _ _)).
  - reflexivity.
  - reflexivity.
Defined.

Lemma thrown_spawn_reported_witness :
  responses (trace (sample_handle throwing_env sample_body ∅))
    = [ResJson 500
         [("error", "The argument 'args[0]' must be a string without null bytes.");
          ("details", "No additional details.");
          ("fullError", "{}")]].
Proof.
  destruct (thrown_spawn_reported sample_number_to_string sample_stringify
              sample_uploads sample_cookies throwing_env sample_body ∅
              (ThrownError invalid_arg))
    as (error & details & Hresp & _ & Herr & _).
  - reflexivity.
  - reflexivity.
  - destruct (Herr invalid_arg eq_refl) as (He & _ & _ & Hd).
    rewrite He, Hd in Hresp.
    + exact Hresp.
    + intros s. discriminate.
    + intros s. discriminate.
Defined.

Lemma details_default_unless_spawn_throws_witness :
  [("error", bot_detection_message);
   ("details", "No additional details.");
   ("fullError", "{}")] !! 1%nat
    = Some ("details", "No additional details.").
Proof.
  apply (details_default_unless_spawn_throws sample_number_to_string
           sample_stringify sample_uploads sample_cookies refused_env
           sample_body ∅).
  - intros t. discriminate.
  - apply list_elem_of_In. vm_compute.
    repeat first [ left; reflexivity | right ].
Defined.

Lemma unconvertible_field_reported_witness :
  spawn_count (trace (sample_handle stub_env object_time_body ∅)) = 0%nat
  /\ disk (sample_handle stub_env object_time_body ∅) = ∅.
Proof.
  refine (proj2 (unconvertible_field_reported sample_number_to_string
            sample_stringify sample_uploads sample_cookies stub_env
            object_time_body ∅ _ _)).
  - reflexivity.
  - reflexivity.
Defined.

Lemma output_paths_distinct_witness :
  outputPath sample_uploads later_env <> outputPath sample_uploads stub_env.
Proof.
  refine (proj1 (output_paths_distinct sample_uploads stub_env later_env _)).
  discriminate.
Defined.

Lemma nothing_deleted_before_send_witness :
  exists failure,
    ResDownload (outputPath sample_uploads stub_env) "clip.mp4" failure
      ∈ take 7 (trace (sample_handle stub_env sample_body ∅)).
Proof.
  apply (nothing_deleted_before_send sample_number_to_string sample_stringify
           sample_uploads sample_cookies stub_env sample_body ∅
           (take 7 (trace (sample_handle stub_env sample_body ∅)))
           (drop 8 (trace (sample_handle stub_env sample_body ∅)))
           sample_output).
  vm_compute. reflexivity.
Defined.

Lemma success_removes_output_witness :
  disk (sample_handle stub_env sample_body ∅)
    !! outputPath sample_uploads stub_env = None.
Proof.
  refine (proj1 (success_removes_output sample_number_to_string
            sample_stringify sample_uploads sample_cookies stub_env
            sample_body ∅ [WritesFile sample_output sample_clip] _ _ _ _)).
  - reflexivity.
  - reflexivity.
  - reflexivity.
  - reflexivity.
Defined.

Lemma other_request_untouched_witness :
  outputPath sample_uploads later_env
    ∉ unlinked (trace (sample_handle stub_env sample_body
                         {[ outputPath sample_uploads later_env := sample_clip ]})).
Proof.
  refine (proj1 (other_request_untouched sample_number_to_string
            sample_stringify sample_uploads sample_cookies stub_env
            sample_body _ later_env _)).
  discriminate.
Defined.


Lemma failed_unlink_leaves_everything_witness :
  unlinked (trace (sample_handle locked_env sample_body ∅))
    = [outputPath sample_uploads locked_env]
  /\ disk (sample_handle locked_env sample_body ∅)
      = disk_after leftover_events ∅.
Proof.
  destruct (failed_unlink_leaves_everything sample_number_to_string
              sample_stringify sample_uploads sample_cookies locked_env
              sample_body ∅ leftover_events eacces)
    as (Hunl & Hdisk & _).
  - reflexivity.
  - reflexivity.
  - reflexivity.
  - reflexivity.
  - split; [exact Hunl | exact Hdisk].
Defined.
